(** * Tshirt hydrological model (models/tshirt/include/Tshirt.h)

    A shallow embedding of the parameter, state and flux structures, of the
    [tshirt_model] constructors and of [tshirt_kernel::run], followed by the
    properties of the time-step orchestration.

    Conventions of the embedding:
    - a C++ [double] is a binary64 primitive float, with IEEE arithmetic;
    - an [int] is a [Z];
    - a [std::vector] is a [list]; an index outside it, which is undefined
      behaviour in C++, is the fault [OutOfBounds];
    - a raw pointer to an array is an [option (list _)], [None] being the null
      pointer, whose dereference is the fault [NullPointer];
    - an output parameter or a mutated argument is returned next to the result;
    - the pointers [giuh_obj] and [et_params] of [run] are taken to point to
      objects. *)

From Stdlib Require Import ZArith Floats.
From stdpp Require Import base list.

Set Warnings "-inexact-float".
Local Open Scope float_scope.

(** ** Faults and the result monad *)

Inductive fault : Set :=
| OutOfBounds   (* operator[] outside a vector or an array *)
| NullPointer   (* dereference of a null pointer *)
| LengthError.  (* std::length_error thrown by vector::resize *)

(** A [Fault] carries no state: what a failed call has written in the objects
    of its caller is given by the definitions that carry these objects
    ([Kernel.run_with_objects] below). *)
Inductive result (A : Type) : Type :=
| Ok (a : A)
| Fault (e : fault).
Arguments Ok {A} a.
Arguments Fault {A} e.

#[global] Instance result_ret : MRet result := fun A a => Ok a.
#[global] Instance result_bind : MBind result := fun A B f m =>
  match m with
  | Ok a => f a
  | Fault e => Fault e
  end.

Definition is_ok {A} (r : result A) : bool :=
  match r with Ok _ => true | Fault _ => false end.

(** ** Vectors and arrays *)

(** [v[i] = x] on a [std::vector]. *)
Definition vec_write {A} (v : list A) (i : nat) (x : A) : result (list A) :=
  if decide (i < length v)%nat then Ok (<[i:=x]> v) else Fault OutOfBounds.

(** [v[i]] read from a [std::vector]. *)
Definition vec_read {A} (v : list A) (i : nat) : result A :=
  match v !! i with
  | Some x => Ok x
  | None => Fault OutOfBounds
  end.

(** [v.resize(n)] where [n] is an [int]: the argument is converted to the
    unsigned [size_type], so a negative [n] becomes a size beyond [max_size()]
    and [resize] throws; otherwise the vector is cut or padded with
    value-initialised elements [d]. *)
Definition vec_resize {A} (d : A) (v : list A) (n : Z) : result (list A) :=
  if (n <? 0)%Z then Fault LengthError
  else Ok (take (Z.to_nat n) v ++ replicate (Z.to_nat n - length v) d).

(** [p[i]] through a [double*]. *)
Definition ptr_read (p : option (list float)) (i : nat) : result float :=
  match p with
  | None => Fault NullPointer
  | Some a => vec_read a i
  end.

(** [for (unsigned long i = i0; i < i0 + n; ++i) body], the loop state threaded
    through the iterations. *)
Fixpoint for_loop {S} (n i : nat) (body : nat -> S -> result S) (s : S) : result S :=
  match n with
  | O => Ok s
  | Datatypes.S n' => s' ← body i s; for_loop n' (Datatypes.S i) body s'
  end.

(** ** Parameters: [struct tshirt_params] *)

Record tshirt_params : Set := mk_tshirt_params {
  maxsmc : float;
  wltsmc : float;
  satdk : float;
  satpsi : float;
  slope : float;
  b : float;
  multiplier : float;
  alpha_fc : float;
  Klf : float;
  Kn : float;
  nash_n : Z;
  Cgw : float;
  Cschaake : float;
  expon : float;
  max_soil_storage_meters : float;
  max_groundwater_storage_meters : float;
  max_lateral_flow : float;
  depth : float
}.

Definition set_max_soil_storage_meters (v : float) (p : tshirt_params) : tshirt_params :=
  mk_tshirt_params (maxsmc p) (wltsmc p) (satdk p) (satpsi p) (slope p) (b p)
    (multiplier p) (alpha_fc p) (Klf p) (Kn p) (nash_n p) (Cgw p) (Cschaake p)
    (expon p) v (max_groundwater_storage_meters p) (max_lateral_flow p) (depth p).

Definition set_Cschaake (v : float) (p : tshirt_params) : tshirt_params :=
  mk_tshirt_params (maxsmc p) (wltsmc p) (satdk p) (satpsi p) (slope p) (b p)
    (multiplier p) (alpha_fc p) (Klf p) (Kn p) (nash_n p) (Cgw p) v
    (expon p) (max_soil_storage_meters p) (max_groundwater_storage_meters p)
    (max_lateral_flow p) (depth p).

Definition set_max_lateral_flow (v : float) (p : tshirt_params) : tshirt_params :=
  mk_tshirt_params (maxsmc p) (wltsmc p) (satdk p) (satpsi p) (slope p) (b p)
    (multiplier p) (alpha_fc p) (Klf p) (Kn p) (nash_n p) (Cgw p) (Cschaake p)
    (expon p) (max_soil_storage_meters p) (max_groundwater_storage_meters p) v
    (depth p).

(** The three members that the initialiser list leaves out hold indeterminate
    values when the constructor body starts. *)
Record indeterminate : Set := {
  indet_Cschaake : float;
  indet_max_soil_storage_meters : float;
  indet_max_lateral_flow : float
}.

(** The member-initialiser list of the constructor (lines 49-62) and the
    default member initialiser [depth = 2.0] (line 40). *)
Definition tshirt_params_init (u : indeterminate)
    (maxsmc wltsmc satdk satpsi slope b multiplier alpha_fc Klf Kn : float)
    (nash_n : Z) (Cgw expon max_gw_storage : float) : tshirt_params :=
  {| maxsmc := maxsmc; wltsmc := wltsmc; satdk := satdk; satpsi := satpsi;
     slope := slope; b := b; multiplier := multiplier; alpha_fc := alpha_fc;
     Klf := Klf; Kn := Kn; nash_n := nash_n; Cgw := Cgw;
     Cschaake := indet_Cschaake u;
     expon := expon;
     max_soil_storage_meters := indet_max_soil_storage_meters u;
     max_groundwater_storage_meters := max_gw_storage;
     max_lateral_flow := indet_max_lateral_flow u;
     depth := 2.0 |}.

(** [tshirt_params::tshirt_params] (lines 46-66). The constructor has no
    [throw] and no check: it returns an object for every argument list. *)
Definition tshirt_params_ctor (u : indeterminate)
    (maxsmc wltsmc satdk satpsi slope b multiplier alpha_fc Klf Kn : float)
    (nash_n : Z) (Cgw expon max_gw_storage : float) : result tshirt_params :=
  let this := tshirt_params_init u maxsmc wltsmc satdk satpsi slope b multiplier
                alpha_fc Klf Kn nash_n Cgw expon max_gw_storage in
  let this := set_max_soil_storage_meters (depth this * maxsmc) this in
  let this := set_Cschaake (3.0 * satdk / 2.0e-6) this in
  let this := set_max_lateral_flow
                (satdk * multiplier * max_soil_storage_meters this) this in
  Ok this.

(** ** State and fluxes: [struct tshirt_state], [struct tshirt_fluxes] *)

Record tshirt_state : Set := mk_tshirt_state {
  soil_storage_meters : float;
  groundwater_storage_meters : float;
  nash_cascade_storeage_meters : option (list float)
}.

(** [tshirt_state(soil, gw)] with the default argument [nullptr]. *)
Definition tshirt_state_default_cascade (soil gw : float) : tshirt_state :=
  mk_tshirt_state soil gw None.

Record tshirt_fluxes : Set := mk_tshirt_fluxes {
  surface_runoff_meters_per_second : float;
  groundwater_flow_meters_per_second : float;
  soil_percolation_flow_meters_per_second : float;
  soil_lateral_flow_meters_per_second : float;
  et_loss_meters : float
}.

(** [tshirt_fluxes(q_gw, q_perc, q_lf, runoff, et_loss)] (lines 103-110). *)
Definition tshirt_fluxes_ctor (q_gw q_perc q_lf runoff et_loss : float) : tshirt_fluxes :=
  {| surface_runoff_meters_per_second := runoff;
     groundwater_flow_meters_per_second := q_gw;
     soil_percolation_flow_meters_per_second := q_perc;
     soil_lateral_flow_meters_per_second := q_lf;
     et_loss_meters := et_loss |}.

Definition TSHIRT_NO_ERROR : Z := 0.
Definition TSHIRT_MASS_BALANCE_ERROR : Z := 100.

(** ** The reservoir collaborator *)

(** Modelled from the spec: [Nonlinear_Reservoir.hpp], which declares
    [Reservoir_Outlet] and [Nonlinear_Reservoir], is not among the sources. An
    outlet is the configuration the spec lists, in the order of the
    constructor arguments used by [Tshirt.h]: coefficient, exponent,
    activation threshold, maximum velocity. *)
Record Reservoir_Outlet : Set := mk_Reservoir_Outlet {
  outlet_coefficient : float;
  outlet_exponent : float;
  activation_threshold_meters : float;
  max_velocity_meters_per_second : float
}.

(** Modelled from the spec: a reservoir is constructed with its minimum
    storage, maximum storage, initial storage and one or more outlets. *)
Record Nonlinear_Reservoir : Set := mk_Nonlinear_Reservoir {
  minimum_storage_meters : float;
  maximum_storage_meters : float;
  current_storage_height_meters : float;
  outlets : list Reservoir_Outlet
}.

(** [Nonlinear_Reservoir(min, max, current, outlets)]. *)
Definition Nonlinear_Reservoir_multi (minimum maximum current : float)
    (os : list Reservoir_Outlet) : Nonlinear_Reservoir :=
  mk_Nonlinear_Reservoir minimum maximum current os.

(** [Nonlinear_Reservoir(min, max, current, a, b, activation, max_velocity)]:
    the reservoir with the single outlet [Reservoir_Outlet(a, b, activation,
    max_velocity)]. *)
Definition Nonlinear_Reservoir_single (minimum maximum current a b activation
    max_velocity : float) : Nonlinear_Reservoir :=
  mk_Nonlinear_Reservoir minimum maximum current
    [mk_Reservoir_Outlet a b activation max_velocity].

(** The accessor for the current storage height. *)
Definition get_storage_height_meters (r : Nonlinear_Reservoir) : float :=
  current_storage_height_meters r.

(** Modelled from the spec: the numerical engine of the reservoir.
    [response_meters_per_second r in_flux dt] advances the storage by one step
    and gives the reservoir after the step, the output velocity and the excess
    (the C++ method mutates the object and writes the excess through a
    reference). [default_outlet] and [default_reservoir] are what the default
    constructors build when a vector is sized. *)
Class ReservoirEngine : Type := {
  default_outlet : Reservoir_Outlet;
  default_reservoir : Nonlinear_Reservoir;
  response_meters_per_second :
    Nonlinear_Reservoir -> float -> float -> Nonlinear_Reservoir * float * float;
  velocity_meters_per_second_for_outlet : Nonlinear_Reservoir -> nat -> float
}.

(** The contract the spec puts on the engine: a step leaves the bounds and the
    outlets as configured, and, when the bounds are ordered, the storage
    between them. *)
Class ReservoirContract `{ReservoirEngine} : Prop := {
  response_keeps_configuration : forall r q dt,
    let r' := (response_meters_per_second r q dt).1.1 in
    minimum_storage_meters r' = minimum_storage_meters r /\
    maximum_storage_meters r' = maximum_storage_meters r /\
    outlets r' = outlets r;
  response_storage_within_bounds : forall r q dt,
    (minimum_storage_meters r <=? maximum_storage_meters r) = true ->
    let r' := (response_meters_per_second r q dt).1.1 in
    (minimum_storage_meters r <=? current_storage_height_meters r') = true /\
    (current_storage_height_meters r' <=? maximum_storage_meters r) = true
}.

(** ** The other collaborators *)

(** [exp] and [pow] of <cmath>. *)
Class Libm : Type := {
  exp : float -> float;
  pow : float -> float -> float
}.

(** The two constants of [Constants.h] used by the field-capacity formula;
    the header is not among the sources. *)
Class Constants : Type := {
  ATMOSPHERIC_PRESSURE_PASCALS : float;
  WATER_SPECIFIC_WEIGHT : float
}.

(** [Schaake_partitioning_scheme(dt, Cschaake, deficit, input, &runoff,
    &infiltration)]: the pair is (surface runoff, infiltration). *)
Class Partitioner : Type := {
  Schaake_partitioning_scheme : float -> float -> float -> float -> float * float
}.

(** [giuh::giuh_kernel], with [calc_giuh_output(dt, runoff)] which updates the
    object. *)
Class Giuh : Type := {
  giuh_kernel : Type;
  calc_giuh_output : giuh_kernel -> float -> float -> float * giuh_kernel
}.

(** [pdm03_struct] with its member [XHuz], and [pdm03_wrapper], which updates
    the structure in place. *)
Class Pdm03 : Type := {
  pdm03_struct : Type;
  XHuz : pdm03_struct -> float;
  set_XHuz : float -> pdm03_struct -> pdm03_struct;
  pdm03_wrapper : pdm03_struct -> pdm03_struct
}.

(** Indices of the two outlets of the soil reservoir (lines 216-218 and
    306-307). *)
Definition lf_outlet_index : nat := 0.
Definition perc_outlet_index : nat := 1.

(** ** [class tshirt_kernel] *)

Module Kernel.
Section Kernel.
Context {engine : ReservoirEngine} {libm : Libm} {constants : Constants}
  {partitioner : Partitioner} {giuh : Giuh} {pdm : Pdm03}.

(** [calc_evapotranspiration] (lines 240-246): the loss and the updated ET
    structure. *)
Definition calc_evapotranspiration (soil_m : float) (et_params : pdm03_struct)
    : float * pdm03_struct :=
  let pdm := et_params in
  let pdm := set_XHuz soil_m pdm in
  let pdm := pdm03_wrapper pdm in
  (XHuz pdm - soil_m, pdm).

(** [calc_soil_field_capacity_storage] (lines 255-267). *)
Definition calc_soil_field_capacity_storage (params : tshirt_params)
    (state : tshirt_state) : float :=
  let head_above_water_table :=
    alpha_fc params * (ATMOSPHERIC_PRESSURE_PASCALS / WATER_SPECIFIC_WEIGHT) in
  let z1 := head_above_water_table - 0.5 in
  let z2 := z1 + 2 in
  maxsmc params * pow (1.0 / satpsi params) (-1.0 / b params) *
  ((b params * pow z2 ((b params - 1) / b params) / (b params - 1)) -
   (b params * pow z1 ((b params - 1) / b params) / (b params - 1))).

(** [init_nash_cascade_vector] (lines 269-279); the vector passed by
    reference is returned. *)
Definition init_nash_cascade_vector (reservoirs : list Nonlinear_Reservoir)
    (params : tshirt_params) (state : tshirt_state)
    (activation max_flow_velocity : float) : result (list Nonlinear_Reservoir) :=
  reservoirs ← vec_resize default_reservoir reservoirs (nash_n params);
  for_loop (length reservoirs) 0 (fun i reservoirs =>
    storage ← ptr_read (nash_cascade_storeage_meters state) i;
    vec_write reservoirs i
      (Nonlinear_Reservoir_single 0 (max_soil_storage_meters params) storage
         (Kn params) 1 activation max_flow_velocity)) reservoirs.

(** The soil reservoir of [run] (line 316). *)
Definition subsurface_reservoir (params : tshirt_params) (state : tshirt_state)
    (subsurface_outlets : list Reservoir_Outlet) : Nonlinear_Reservoir :=
  Nonlinear_Reservoir_multi 0.0 (depth params) (soil_storage_meters state)
    subsurface_outlets.

(** The groundwater reservoir of [run] (lines 353-356). *)
Definition groundwater_res (params : tshirt_params) (state : tshirt_state)
    : Nonlinear_Reservoir :=
  let max_gw_velocity := Cgw params * (exp (expon params) - 1) in
  Nonlinear_Reservoir_single 0 (max_groundwater_storage_meters params)
    (groundwater_storage_meters state) (Cgw params) 1 0 max_gw_velocity.

(** The body of the loop over the Nash cascade (lines 340-343). The loop
    state is [Qlf], [subsurface_excess] and the vector, whose reservoirs the
    calls mutate. *)
Definition nash_cascade_body (dt : float) (i : nat)
    (st : float * float * list Nonlinear_Reservoir)
    : result (float * float * list Nonlinear_Reservoir) :=
  let '(Qlf, subsurface_excess, nash_cascade) := st in
  r ← vec_read nash_cascade i;
  let '(r, velocity, subsurface_excess) := response_meters_per_second r Qlf dt in
  nash_cascade ← vec_write nash_cascade i r;
  let Qlf := velocity in
  let Qlf := Qlf + subsurface_excess / dt in
  Ok (Qlf, subsurface_excess, nash_cascade).

(** The loop over the Nash cascade (lines 339-344). *)
Definition nash_cascade_loop (dt : float) (Qlf subsurface_excess : float)
    (nash_cascade : list Nonlinear_Reservoir)
    : result (float * float * list Nonlinear_Reservoir) :=
  for_loop (length nash_cascade) 0 (nash_cascade_body dt)
    (Qlf, subsurface_excess, nash_cascade).

(** What [run] leaves behind: the return code and the four objects it
    writes through references and pointers. *)
Record run_result : Type := mk_run_result {
  return_code : Z;
  new_state_out : tshirt_state;
  fluxes_out : tshirt_fluxes;
  giuh_out : giuh_kernel;
  et_params_out : pdm03_struct
}.

Definition set_soil_storage_meters (v : float) (s : tshirt_state) : tshirt_state :=
  mk_tshirt_state v (groundwater_storage_meters s) (nash_cascade_storeage_meters s).
Definition set_groundwater_storage_meters (v : float) (s : tshirt_state) : tshirt_state :=
  mk_tshirt_state (soil_storage_meters s) v (nash_cascade_storeage_meters s).

Definition set_et_loss_meters (v : float) (f : tshirt_fluxes) : tshirt_fluxes :=
  mk_tshirt_fluxes (surface_runoff_meters_per_second f)
    (groundwater_flow_meters_per_second f)
    (soil_percolation_flow_meters_per_second f)
    (soil_lateral_flow_meters_per_second f) v.
Definition set_groundwater_flow (v : float) (f : tshirt_fluxes) : tshirt_fluxes :=
  mk_tshirt_fluxes (surface_runoff_meters_per_second f) v
    (soil_percolation_flow_meters_per_second f)
    (soil_lateral_flow_meters_per_second f) (et_loss_meters f).
Definition set_soil_lateral_flow (v : float) (f : tshirt_fluxes) : tshirt_fluxes :=
  mk_tshirt_fluxes (surface_runoff_meters_per_second f)
    (groundwater_flow_meters_per_second f)
    (soil_percolation_flow_meters_per_second f) v (et_loss_meters f).
Definition set_soil_percolation_flow (v : float) (f : tshirt_fluxes) : tshirt_fluxes :=
  mk_tshirt_fluxes (surface_runoff_meters_per_second f)
    (groundwater_flow_meters_per_second f) v
    (soil_lateral_flow_meters_per_second f) (et_loss_meters f).
Definition set_surface_runoff (v : float) (f : tshirt_fluxes) : tshirt_fluxes :=
  mk_tshirt_fluxes v (groundwater_flow_meters_per_second f)
    (soil_percolation_flow_meters_per_second f)
    (soil_lateral_flow_meters_per_second f) (et_loss_meters f).

(** [run] from line 316 to its end, entered with the outlet vector, the two
    results of the partitioning and [Sfc]. *)
Definition run_routing (dt : float) (params : tshirt_params) (state new_state : tshirt_state)
    (fluxes : tshirt_fluxes) (giuh_obj : giuh_kernel) (et_params : pdm03_struct)
    (surface_runoff subsurface_infiltration_flux Sfc : float)
    (subsurface_outlets : list Reservoir_Outlet) : result run_result :=
  let subsurface_reservoir := subsurface_reservoir params state subsurface_outlets in
  let '(subsurface_reservoir, _, subsurface_excess) :=
    response_meters_per_second subsurface_reservoir subsurface_infiltration_flux dt in
  let Qlf := velocity_meters_per_second_for_outlet subsurface_reservoir lf_outlet_index in
  let Qperc := velocity_meters_per_second_for_outlet subsurface_reservoir perc_outlet_index in
  let new_soil_storage := get_storage_height_meters subsurface_reservoir in
  let '(et_loss, et_params) := calc_evapotranspiration new_soil_storage et_params in
  let fluxes := set_et_loss_meters et_loss fluxes in
  let new_state := set_soil_storage_meters (new_soil_storage - et_loss_meters fluxes) new_state in
  nash_cascade ← init_nash_cascade_vector [] params state Sfc (max_lateral_flow params);
  '(Qlf, subsurface_excess, nash_cascade) ← nash_cascade_loop dt Qlf subsurface_excess nash_cascade;
  let groundwater_res := groundwater_res params state in
  let '(groundwater_res, gw_flow, excess_gw_water) :=
    response_meters_per_second groundwater_res Qperc dt in
  let fluxes := set_groundwater_flow gw_flow fluxes in
  let new_state :=
    set_groundwater_storage_meters (get_storage_height_meters groundwater_res) new_state in
  let fluxes := set_soil_lateral_flow Qlf fluxes in
  let fluxes := set_soil_percolation_flow Qperc fluxes in
  let '(runoff, giuh_obj) := calc_giuh_output giuh_obj dt surface_runoff in
  let fluxes := set_surface_runoff runoff fluxes in
  Ok (mk_run_result 0 new_state fluxes giuh_obj et_params).

(** The body of [run] (lines 293-371), entered with the vector
    [subsurface_outlets] as its declaration at line 303 leaves it. The
    program is [run_from []] only: line 303 leaves the vector empty, and a
    call with any other vector is not a call of [run]. *)
Definition run_from (subsurface_outlets : list Reservoir_Outlet)
    (dt : float) (params : tshirt_params) (state new_state : tshirt_state)
    (fluxes : tshirt_fluxes) (input_flux_meters : float) (giuh_obj : giuh_kernel)
    (et_params : pdm03_struct) : result run_result :=
  let column_total_soil_moisture_deficit :=
    max_soil_storage_meters params - soil_storage_meters state in
  let '(surface_runoff, subsurface_infiltration_flux) :=
    Schaake_partitioning_scheme dt (Cschaake params)
      column_total_soil_moisture_deficit input_flux_meters in
  let Sfc := calc_soil_field_capacity_storage params state in
  subsurface_outlets ← vec_write subsurface_outlets lf_outlet_index
    (mk_Reservoir_Outlet (Klf params) 1.0 Sfc (max_lateral_flow params));
  subsurface_outlets ← vec_write subsurface_outlets perc_outlet_index
    (mk_Reservoir_Outlet (satdk params * slope params) 1.0 Sfc (satdk params));
  run_routing dt params state new_state fluxes giuh_obj et_params
    surface_runoff subsurface_infiltration_flux Sfc subsurface_outlets.

(** [run] (lines 282-371): [vector<Reservoir_Outlet> subsurface_outlets;] is
    default-constructed, hence empty. *)
Definition run : float -> tshirt_params -> tshirt_state -> tshirt_state ->
    tshirt_fluxes -> float -> giuh_kernel -> pdm03_struct -> result run_result :=
  run_from [].

(** *** [run] with the objects of the caller

    [run] writes through the references [new_state] and [fluxes] and through
    the pointers [giuh_obj] and [et_params]. When a call fails, these objects
    hold what was written before the failure (the exception that [resize]
    throws can be caught), which a [Fault] alone does not show. The two
    definitions below embed the same lines as [run_routing] and [run], carry
    the four objects through the call, and give them back with the outcome on
    every path. *)
Record caller_objects : Type := mk_caller_objects {
  new_state_of : tshirt_state;
  fluxes_of : tshirt_fluxes;
  giuh_of : giuh_kernel;
  et_params_of : pdm03_struct
}.

Definition with_new_state (v : tshirt_state) (o : caller_objects) : caller_objects :=
  mk_caller_objects v (fluxes_of o) (giuh_of o) (et_params_of o).
Definition with_fluxes (v : tshirt_fluxes) (o : caller_objects) : caller_objects :=
  mk_caller_objects (new_state_of o) v (giuh_of o) (et_params_of o).
Definition with_giuh (v : giuh_kernel) (o : caller_objects) : caller_objects :=
  mk_caller_objects (new_state_of o) (fluxes_of o) v (et_params_of o).
Definition with_et_params (v : pdm03_struct) (o : caller_objects) : caller_objects :=
  mk_caller_objects (new_state_of o) (fluxes_of o) (giuh_of o) v.

(** [run] from line 316 to its end, on the objects of the caller: the
    outcome (the return code or the fault) and the objects as the call
    leaves them. *)
Definition run_routing_with_objects (dt : float) (params : tshirt_params)
    (state : tshirt_state) (objects : caller_objects)
    (surface_runoff subsurface_infiltration_flux Sfc : float)
    (subsurface_outlets : list Reservoir_Outlet) : result Z * caller_objects :=
  let subsurface_reservoir := subsurface_reservoir params state subsurface_outlets in
  let '(subsurface_reservoir, _, subsurface_excess) :=
    response_meters_per_second subsurface_reservoir subsurface_infiltration_flux dt in
  let Qlf := velocity_meters_per_second_for_outlet subsurface_reservoir lf_outlet_index in
  let Qperc := velocity_meters_per_second_for_outlet subsurface_reservoir perc_outlet_index in
  let new_soil_storage := get_storage_height_meters subsurface_reservoir in
  let '(et_loss, et_params) :=
    calc_evapotranspiration new_soil_storage (et_params_of objects) in
  let objects := with_et_params et_params objects in
  let objects := with_fluxes (set_et_loss_meters et_loss (fluxes_of objects)) objects in
  let objects :=
    with_new_state
      (set_soil_storage_meters
         (new_soil_storage - et_loss_meters (fluxes_of objects)) (new_state_of objects))
      objects in
  match init_nash_cascade_vector [] params state Sfc (max_lateral_flow params) with
  | Fault e => (Fault e, objects)
  | Ok nash_cascade =>
      match nash_cascade_loop dt Qlf subsurface_excess nash_cascade with
      | Fault e => (Fault e, objects)
      | Ok (Qlf, subsurface_excess, nash_cascade) =>
          let groundwater_res := groundwater_res params state in
          let '(groundwater_res, gw_flow, excess_gw_water) :=
            response_meters_per_second groundwater_res Qperc dt in
          let objects :=
            with_fluxes (set_groundwater_flow gw_flow (fluxes_of objects)) objects in
          let objects :=
            with_new_state
              (set_groundwater_storage_meters
                 (get_storage_height_meters groundwater_res) (new_state_of objects))
              objects in
          let objects :=
            with_fluxes (set_soil_lateral_flow Qlf (fluxes_of objects)) objects in
          let objects :=
            with_fluxes (set_soil_percolation_flow Qperc (fluxes_of objects)) objects in
          let '(runoff, giuh_obj) := calc_giuh_output (giuh_of objects) dt surface_runoff in
          let objects := with_giuh giuh_obj objects in
          let objects :=
            with_fluxes (set_surface_runoff runoff (fluxes_of objects)) objects in
          (Ok 0%Z, objects)
      end
  end.

(** [run] (lines 282-371) on the objects of the caller, with the vector
    [subsurface_outlets] empty as line 303 declares it. *)
Definition run_with_objects (dt : float) (params : tshirt_params) (state : tshirt_state)
    (objects : caller_objects) (input_flux_meters : float)
    : result Z * caller_objects :=
  let column_total_soil_moisture_deficit :=
    max_soil_storage_meters params - soil_storage_meters state in
  let '(surface_runoff, subsurface_infiltration_flux) :=
    Schaake_partitioning_scheme dt (Cschaake params)
      column_total_soil_moisture_deficit input_flux_meters in
  let Sfc := calc_soil_field_capacity_storage params state in
  let subsurface_outlets : list Reservoir_Outlet := [] in
  match vec_write subsurface_outlets lf_outlet_index
          (mk_Reservoir_Outlet (Klf params) 1.0 Sfc (max_lateral_flow params)) with
  | Fault e => (Fault e, objects)
  | Ok subsurface_outlets =>
      match vec_write subsurface_outlets perc_outlet_index
              (mk_Reservoir_Outlet (satdk params * slope params) 1.0 Sfc
                 (satdk params)) with
      | Fault e => (Fault e, objects)
      | Ok subsurface_outlets =>
          run_routing_with_objects dt params state objects surface_runoff
            subsurface_infiltration_flux Sfc subsurface_outlets
      end
  end.

(** The outcome and the objects, as the result that [run_routing] and [run]
    give: the objects with the return code, or the fault alone. *)
Definition returned (r : result Z * caller_objects) : result run_result :=
  match r.1 with
  | Ok code =>
      Ok (mk_run_result code (new_state_of r.2) (fluxes_of r.2) (giuh_of r.2)
            (et_params_of r.2))
  | Fault e => Fault e
  end.

(** [mass_check] (lines 373-382). *)
Definition mass_check (params : tshirt_params) (current_state : tshirt_state)
    (input_flux_meters : float) (next_state : tshirt_state)
    (calculated_fluxes : tshirt_fluxes) (timestep_seconds : float) : Z := 0.

End Kernel.
End Kernel.

(** ** The cascade loop as a recursion

    The loop of lines 339-344 in closed form, by recursion over the stages:
    what leaves a stage, its output velocity plus its excess over [dt], is
    what the next stage receives. The result is the final [Qlf], the excess
    of the last stage and the stages after their step. *)
Fixpoint cascade_route `{ReservoirEngine} (dt : float)
    (stages : list Nonlinear_Reservoir) (Qlf excess : float)
    : float * float * list Nonlinear_Reservoir :=
  match stages with
  | [] => (Qlf, excess, [])
  | stage :: rest =>
      let '(stage', velocity, excess) := response_meters_per_second stage Qlf dt in
      let '(Qlf, excess, rest') :=
        cascade_route dt rest (velocity + excess / dt) excess in
      (Qlf, excess, stage' :: rest')
  end.

(** ** The cascade routing in the words of the spec

    Step 6 of the time step, as the spec words it: [Qlf] goes through the
    stages in order, each stage turning its input velocity into an output
    velocity and an excess; the excess of every stage is accumulated, and the
    accumulated excess over [dt] is added to the final [Qlf]. *)
Fixpoint accumulate_route `{ReservoirEngine} (dt : float)
    (stages : list Nonlinear_Reservoir) (velocity accumulated : float)
    : float * float :=
  match stages with
  | [] => (velocity, accumulated)
  | stage :: rest =>
      let '(_, velocity, excess) := response_meters_per_second stage velocity dt in
      accumulate_route dt rest velocity (accumulated + excess)
  end.

Definition Qlf_with_accumulated_excess `{ReservoirEngine} (dt : float)
    (stages : list Nonlinear_Reservoir) (Qlf : float) : float :=
  let '(velocity, accumulated) := accumulate_route dt stages Qlf 0 in
  velocity + accumulated / dt.

(** ** [class tshirt_model] *)

Module Model.
Section Model.
Context {engine : ReservoirEngine} {libm : Libm}.

(** [calc_soil_field_capacity_storage()], a member function that [Tshirt.h]
    declares (line 190) and does not define: it is a parameter here. It
    reads the object, whose parameters and state the constructor has set
    when it calls it. *)
Variable calc_soil_field_capacity_storage :
  tshirt_params -> option tshirt_state -> float.

(** The data members (lines 204-221). A [shared_ptr] or [unique_ptr] is an
    [option], [None] being the empty pointer. [current_state] and
    [previous_state] share one object. *)
Record tshirt_model : Set := mk_tshirt_model {
  current_state : option tshirt_state;
  model_params : tshirt_params;
  previous_state : option tshirt_state;
  soil_lf_nash_res : list (option Nonlinear_Reservoir);
  soil_reservoir : Nonlinear_Reservoir;
  groundwater_reservoir : Nonlinear_Reservoir;
  fluxes : option tshirt_fluxes
}.

(** [p->member] through a [shared_ptr]. *)
Definition deref {A} (p : option A) : result A :=
  match p with
  | Some a => Ok a
  | None => Fault NullPointer
  end.

(** The constructor [tshirt_model(model_params, initial_state)]
    (lines 128-171). *)
Definition tshirt_model_ctor (model_params : tshirt_params)
    (initial_state : option tshirt_state) : result tshirt_model :=
  let previous_state := initial_state in
  let current_state := initial_state in
  let Sfc := calc_soil_field_capacity_storage model_params previous_state in
  soil_lf_nash_res ← vec_resize None [] (nash_n model_params);
  soil_lf_nash_res ← for_loop (length soil_lf_nash_res) 0 (fun i soil_lf_nash_res =>
    s ← deref previous_state;
    storage ← ptr_read (nash_cascade_storeage_meters s) i;
    vec_write soil_lf_nash_res i
      (Some (Nonlinear_Reservoir_single 0.0 (max_soil_storage_meters model_params)
               storage (Kn model_params) 1.0 Sfc (max_lateral_flow model_params))))
    soil_lf_nash_res;
  let soil_res_outlets := replicate 2 default_outlet in
  soil_res_outlets ← vec_write soil_res_outlets lf_outlet_index
    (mk_Reservoir_Outlet (Klf model_params) 1.0 Sfc (max_lateral_flow model_params));
  soil_res_outlets ← vec_write soil_res_outlets perc_outlet_index
    (mk_Reservoir_Outlet (satdk model_params * slope model_params) 1.0 Sfc
       (satdk model_params));
  s ← deref previous_state;
  let soil_reservoir :=
    Nonlinear_Reservoir_multi 0.0 (depth model_params) (soil_storage_meters s)
      soil_res_outlets in
  let max_gw_velocity := Cgw model_params * (exp (expon model_params) - 1) in
  s ← deref previous_state;
  let groundwater_reservoir :=
    Nonlinear_Reservoir_single 0 (max_groundwater_storage_meters model_params)
      (groundwater_storage_meters s) (Cgw model_params) 1 0 max_gw_velocity in
  let fluxes := None in
  Ok (mk_tshirt_model current_state model_params previous_state soil_lf_nash_res
        soil_reservoir groundwater_reservoir fluxes).

(** The constructor [tshirt_model(model_params)] (lines 173-174). *)
Definition tshirt_model_ctor_default (model_params : tshirt_params)
    : result tshirt_model :=
  tshirt_model_ctor model_params (Some (tshirt_state_default_cascade 0.0 0.0)).

End Model.
End Model.

(** ** Collaborators for the worked scenarios

    The theorems below hold for every engine, partitioner, unit hydrograph,
    ET submodel and libm. The scenarios evaluate the embedding, and need
    collaborators that compute. *)

Module Scenario.

(** [exp] by scaling and squaring of a Taylor polynomial, [pow] through a
    logarithm by square roots and the series of the inverse hyperbolic
    tangent: both good to about nine digits. *)
Fixpoint taylor_exp (n : nat) (k y : float) : float :=
  match n with
  | O => 1
  | S n' => 1 + y / k * taylor_exp n' (k + 1) y
  end.

Fixpoint square_n (n : nat) (x : float) : float :=
  match n with
  | O => x
  | S n' => square_n n' (x * x)
  end.

Definition exp_approx (x : float) : float :=
  square_n 10 (taylor_exp 12 1 (x / 1024)).

Fixpoint sqrt_n (n : nat) (x : float) : float :=
  match n with
  | O => x
  | S n' => sqrt_n n' (sqrt x)
  end.

Fixpoint atanh_series (n : nat) (k w2 : float) : float :=
  match n with
  | O => 0
  | S n' => 1 / k + w2 * atanh_series n' (k + 2) w2
  end.

Definition ln_approx (x : float) : float :=
  let z := sqrt_n 10 x in
  let w := (z - 1) / (z + 1) in
  1024 * (2 * w * atanh_series 6 1 (w * w)).

Definition pow_approx (x y : float) : float := exp_approx (y * ln_approx x).

Definition libm : Libm := {| exp := exp_approx; pow := pow_approx |}.

Definition constants : Constants :=
  {| ATMOSPHERIC_PRESSURE_PASCALS := 101300; WATER_SPECIFIC_WEIGHT := 9810 |}.

(** A reservoir engine with linear outlets (every outlet that [Tshirt.h]
    builds has exponent 1): an outlet is closed up to its activation
    threshold, then discharges in proportion to the storage above it, up to
    its maximum velocity. *)
Definition fmin (x y : float) : float := if x <? y then x else y.

Definition outlet_velocity (o : Reservoir_Outlet) (storage : float) : float :=
  if storage <=? activation_threshold_meters o then 0
  else fmin (max_velocity_meters_per_second o)
         (outlet_coefficient o * (storage - activation_threshold_meters o)).

Definition with_storage (storage : float) (r : Nonlinear_Reservoir) : Nonlinear_Reservoir :=
  mk_Nonlinear_Reservoir (minimum_storage_meters r) (maximum_storage_meters r)
    storage (outlets r).

(** One explicit step: add the inflow, discharge through the outlets, report
    what is above the maximum as excess, and keep the storage between the
    bounds. *)
Definition linear_response (r : Nonlinear_Reservoir) (in_flux dt : float)
    : Nonlinear_Reservoir * float * float :=
  let s := current_storage_height_meters r + in_flux * dt in
  let v := foldr (fun o acc => outlet_velocity o s + acc) 0 (outlets r) in
  let s := s - v * dt in
  let excess := if maximum_storage_meters r <? s then s - maximum_storage_meters r else 0 in
  let s := if s <=? maximum_storage_meters r then s else maximum_storage_meters r in
  let s := if minimum_storage_meters r <=? s then s else minimum_storage_meters r in
  (with_storage s r, v, excess).

Definition linear_velocity_for_outlet (r : Nonlinear_Reservoir) (i : nat) : float :=
  match outlets r !! i with
  | Some o => outlet_velocity o (current_storage_height_meters r)
  | None => 0
  end.

Definition linear_engine : ReservoirEngine :=
  {| default_outlet := mk_Reservoir_Outlet 0 0 0 0;
     default_reservoir := mk_Nonlinear_Reservoir 0 1 0 [];
     response_meters_per_second := linear_response;
     velocity_meters_per_second_for_outlet := linear_velocity_for_outlet |}.

(** A partitioner that infiltrates the input up to the moisture deficit and
    turns the rest into surface runoff. *)
Definition deficit_partitioner : Partitioner :=
  {| Schaake_partitioning_scheme := fun dt magic deficit input =>
       if input <=? deficit then (0, input)
       else if 0 <? deficit then (input - deficit, deficit)
       else (input, 0) |}.

(** A unit hydrograph with no delay. *)
Definition giuh_passthrough : Giuh :=
  {| giuh_kernel := unit;
     calc_giuh_output := fun g dt runoff => (runoff, g) |}.

(** An ET structure reduced to [XHuz], with a submodel that adds [delta] to
    it, so that [calc_evapotranspiration] returns the loss [delta]. *)
Definition pdm03_shift (delta : float) : Pdm03 :=
  {| pdm03_struct := float;
     XHuz := fun p => p;
     set_XHuz := fun v _ => v;
     pdm03_wrapper := fun p => p + delta |}.

End Scenario.

(** ** Configurations shared by the two construction paths *)

(** A stage of the Nash cascade, as both construction paths configure it. *)
Definition cascade_stage (params : tshirt_params) (Sfc storage : float)
    : Nonlinear_Reservoir :=
  mk_Nonlinear_Reservoir 0 (max_soil_storage_meters params) storage
    [mk_Reservoir_Outlet (Kn params) 1 Sfc (max_lateral_flow params)].

(** The two outlets of the soil reservoir, as both paths configure them. *)
Definition soil_outlets (params : tshirt_params) (Sfc : float) : list Reservoir_Outlet :=
  [mk_Reservoir_Outlet (Klf params) 1 Sfc (max_lateral_flow params);
   mk_Reservoir_Outlet (satdk params * slope params) 1 Sfc (satdk params)].

(** ** Scenario inputs *)

(** The field capacity that the model object computes, taken to be the
    formula of the kernel (which does not read the state). *)
Definition model_Sfc `{Libm} `{Constants} (params : tshirt_params)
    (state : option tshirt_state) : float :=
  Kernel.calc_soil_field_capacity_storage params (tshirt_state_default_cascade 0 0).


Definition no_indeterminate : indeterminate :=
  {| indet_Cschaake := 0; indet_max_soil_storage_meters := 0;
     indet_max_lateral_flow := 0 |}.

(** The parameter object that the constructor returns, the object with the
    indeterminate members left as they were when it faults (it never does). *)
Definition constructed (r : result tshirt_params) : tshirt_params :=
  match r with
  | Ok p => p
  | Fault _ =>
      tshirt_params_init no_indeterminate 0 0 0 0 0 0 0 0 0 0 0%Z 0 0 0
  end.

(** A catchment with a quarter of its two-metre column as pore space, a fast
    lateral outlet, no percolation ([slope = 0]) and a cascade of two stages
    that hold their water ([Kn = 0]). *)
Definition catchment : tshirt_params :=
  constructed (tshirt_params_ctor no_indeterminate
    0.25 0.066 0.5 0.355 0 4.05 1 0.33 1024 0 2 0.01 5 0.05).

Definition dry_state : tshirt_state := mk_tshirt_state 0 0 (Some [0; 0]).

Definition no_fluxes : tshirt_fluxes := tshirt_fluxes_ctor 0 0 0 0 0.

(** The domain the spec gives the primary parameters: no negative rate,
    [b] other than 1, no zero maximum storage. *)
Definition outside_domain (maxsmc satdk b Klf Kn Cgw max_gw_storage : float) : bool :=
  (satdk <? 0) || (Klf <? 0) || (Kn <? 0) || (Cgw <? 0)
  || (b =? 1) || (maxsmc =? 0) || (max_gw_storage =? 0).

(** The catchment of the scenario with another number of stages. *)
Definition catchment_with_stages (n : Z) : tshirt_params :=
  constructed (tshirt_params_ctor no_indeterminate
    0.25 0.066 0.5 0.355 0 4.05 1 0.33 1024 0 n 0.01 5 0.05).

(** The catchment of the scenario with [b = 1], where the field-capacity
    formula divides by [b - 1]. *)
Definition singular_catchment : tshirt_params :=
  constructed (tshirt_params_ctor no_indeterminate
    0.25 0.066 0.5 0.355 0 1 1 0.33 1024 0 2 0.01 5 0.05).

(** A state whose array holds one storage. *)
Definition one_stage_state : tshirt_state := mk_tshirt_state 0 0 (Some [0]).

(** The catchment of the scenario with a percolation outlet that opens
    ([slope = 0.125]). *)
Definition percolating_catchment : tshirt_params :=
  constructed (tshirt_params_ctor no_indeterminate
    0.25 0.066 0.5 0.355 0.125 4.05 1 0.33 1024 0 2 0.01 5 0.05).

(** The two stages of the scenario, empty, with the field capacity taken at a
    quarter of a metre. *)
Definition empty_stages : list Nonlinear_Reservoir :=
  [cascade_stage catchment 0.25 0; cascade_stage catchment 0.25 0].

(** Objects of a caller that are told apart from what [run] writes: a new
    state with storages 3 and 5 and a null cascade pointer, fluxes all 7, and
    an ET structure whose submodel adds [delta] to [XHuz]. *)
Definition marked_objects (delta : float)
    : @Kernel.caller_objects Scenario.giuh_passthrough (Scenario.pdm03_shift delta) :=
  @Kernel.mk_caller_objects Scenario.giuh_passthrough (Scenario.pdm03_shift delta)
    (tshirt_state_default_cascade 3 5) (tshirt_fluxes_ctor 7 7 7 7 7) tt 0.

(** * Properties *)

(** ** Generic facts on the result monad, vectors and loops *)

Lemma bind_Ok {A B} (m : result A) (f : A -> result B) (y : B) :
  (x ← m; f x) = Ok y -> exists x, m = Ok x /\ f x = Ok y.
Proof. destruct m as [x|e]; cbn; [eauto | discriminate]. Qed.

Lemma bind_Fault {A B} (e : fault) (f : A -> result B) :
  (x ← Fault e; f x) = Fault e.
Proof. reflexivity. Qed.

Lemma vec_write_empty {A} (i : nat) (x : A) : vec_write [] i x = Fault OutOfBounds.
Proof. unfold vec_write. case_decide as Hi; [cbn in Hi; lia | reflexivity]. Qed.

Lemma vec_write_lt {A} (v : list A) (i : nat) (x : A) :
  (i < length v)%nat -> vec_write v i x = Ok (<[i:=x]> v).
Proof. intros Hi. unfold vec_write. case_decide; [reflexivity | contradiction]. Qed.

Lemma vec_write_ge {A} (v : list A) (i : nat) (x : A) :
  (length v <= i)%nat -> vec_write v i x = Fault OutOfBounds.
Proof. intros Hi. unfold vec_write. case_decide; [lia | reflexivity]. Qed.

Lemma vec_resize_empty {A} (d : A) (n : Z) :
  (0 <= n)%Z -> vec_resize d [] n = Ok (replicate (Z.to_nat n) d).
Proof.
  intros Hn. unfold vec_resize.
  destruct (Z.ltb_spec n 0) as [Hneg|_]; [lia|].
  rewrite take_nil. cbn. by rewrite Nat.sub_0_r.
Qed.

Lemma vec_resize_negative {A} (d : A) (v : list A) (n : Z) :
  (n < 0)%Z -> vec_resize d v n = Fault LengthError.
Proof.
  intros Hn. unfold vec_resize.
  destruct (Z.ltb_spec n 0) as [_|Hpos]; [reflexivity | lia].
Qed.

(** ** The parameter constructor *)

(** C9. For every argument list the constructor gives the same object
    whatever the indeterminate members held, and in it [depth] is 2.0,
    [max_soil_storage_meters] is [depth * maxsmc], [Cschaake] is
    [3 * satdk / (2 * 10^-6)] and [max_lateral_flow] is
    [satdk * multiplier * max_soil_storage_meters]. *)
Theorem tshirt_params_derived_values
    (maxsmc wltsmc satdk satpsi slope b multiplier alpha_fc Klf Kn : float)
    (nash_n : Z) (Cgw expon max_gw_storage : float) :
  exists p,
    (forall u, tshirt_params_ctor u maxsmc wltsmc satdk satpsi slope b multiplier
                 alpha_fc Klf Kn nash_n Cgw expon max_gw_storage = Ok p) /\
    depth p = 2.0 /\
    max_soil_storage_meters p = depth p * maxsmc /\
    Cschaake p = 3 * satdk / (2 * 1e-6) /\
    max_lateral_flow p = satdk * multiplier * max_soil_storage_meters p.
Proof.
  exists (constructed (tshirt_params_ctor no_indeterminate maxsmc wltsmc satdk
            satpsi slope b multiplier alpha_fc Klf Kn nash_n Cgw expon
            max_gw_storage)).
  split; [intros u; reflexivity | repeat split; reflexivity].
Qed.

(** C8, as the code has it. The constructor checks nothing: for every argument
    list, inside the domain or not, it returns an object, and the object holds
    each of the fourteen primary parameters as it was given. *)
Theorem tshirt_params_ctor_accepts_everything (u : indeterminate)
    (maxsmc' wltsmc' satdk' satpsi' slope' b' multiplier' alpha_fc' Klf' Kn' : float)
    (nash_n' : Z) (Cgw' expon' max_gw_storage : float) :
  exists p,
    tshirt_params_ctor u maxsmc' wltsmc' satdk' satpsi' slope' b' multiplier'
      alpha_fc' Klf' Kn' nash_n' Cgw' expon' max_gw_storage = Ok p /\
    maxsmc p = maxsmc' /\ wltsmc p = wltsmc' /\ satdk p = satdk' /\
    satpsi p = satpsi' /\ slope p = slope' /\ b p = b' /\
    multiplier p = multiplier' /\ alpha_fc p = alpha_fc' /\ Klf p = Klf' /\
    Kn p = Kn' /\ nash_n p = nash_n' /\ Cgw p = Cgw' /\ expon p = expon' /\
    max_groundwater_storage_meters p = max_gw_storage.
Proof.
  eexists. split; [reflexivity|]. cbn. repeat split; reflexivity.
Qed.

(** C8, refuted as stated: a negative conductivity, [b = 1] and a zero
    maximum groundwater storage are each outside the domain, and each is
    accepted. *)
Lemma tshirt_params_ctor_accepts_invalid :
  (outside_domain 0.439 (-1) 4.05 0.01 0.03 0.01 0.05 = true /\
   is_ok (tshirt_params_ctor no_indeterminate
            0.439 0.066 (-1) 0.355 0.01 4.05 0 0.33 0.01 0.03 2 0.01 5 0.05) = true) /\
  (outside_domain 0.439 1e-6 1 0.01 0.03 0.01 0.05 = true /\
   is_ok (tshirt_params_ctor no_indeterminate
            0.439 0.066 1e-6 0.355 0.01 1 0 0.33 0.01 0.03 2 0.01 5 0.05) = true) /\
  (outside_domain 0.439 1e-6 4.05 0.01 0.03 0.01 0 = true /\
   is_ok (tshirt_params_ctor no_indeterminate
            0.439 0.066 1e-6 0.355 0.01 4.05 0 0.33 0.01 0.03 2 0.01 5 0) = true).
Proof. repeat split; vm_compute; reflexivity. Qed.

(** ** The time step of the kernel *)

Section KernelProperties.
Context {engine : ReservoirEngine} {libm : Libm} {constants : Constants}
  {partitioner : Partitioner} {giuh : Giuh} {pdm : Pdm03}.

(** [run_from] faults on any vector with fewer than two slots. *)
Lemma run_from_short (v : list Reservoir_Outlet) dt params state new_state fluxes
    input_flux_meters giuh_obj et_params :
  (length v < 2)%nat ->
  Kernel.run_from v dt params state new_state fluxes input_flux_meters giuh_obj
    et_params = Fault OutOfBounds.
Proof.
  intros Hv. unfold Kernel.run_from.
  destruct (Schaake_partitioning_scheme _ _ _ _) as [surface_runoff infiltration].
  destruct v as [|o0 [|o1 v]]; cbn in Hv; try lia; reflexivity.
Qed.

(** C4. The outlet vector of [run] is empty when the outlets are stored at
    indices 0 and 1: the first store is out of bounds, and every call of
    [run] ends in that fault, before the routing that builds the soil
    reservoir. *)
Theorem run_outlet_store_out_of_bounds dt params state new_state fluxes
    input_flux_meters giuh_obj et_params :
  length ([] : list Reservoir_Outlet) = 0%nat /\
  (forall o : Reservoir_Outlet, vec_write [] lf_outlet_index o = Fault OutOfBounds) /\
  Kernel.run dt params state new_state fluxes input_flux_meters giuh_obj et_params
    = Fault OutOfBounds.
Proof.
  split; [reflexivity|]. split; [intros o; apply vec_write_empty|].
  unfold Kernel.run. apply run_from_short. cbn. lia.
Qed.

(** One iteration of the loop, at the stage that follows [done]. *)
Lemma nash_cascade_body_middle dt (done rest : list Nonlinear_Reservoir)
    (r : Nonlinear_Reservoir) (Qlf excess : float) :
  Kernel.nash_cascade_body dt (length done) (Qlf, excess, done ++ r :: rest) =
  let '(r', velocity, excess') := response_meters_per_second r Qlf dt in
  Ok (velocity + excess' / dt, excess', done ++ r' :: rest).
Proof.
  unfold Kernel.nash_cascade_body, vec_read.
  rewrite list_lookup_middle by reflexivity. cbn [mbind result_bind].
  destruct (response_meters_per_second r Qlf dt) as [[r' velocity] excess'].
  rewrite vec_write_lt by (rewrite length_app; cbn; lia).
  cbn [mbind result_bind].
  rewrite insert_app_r_alt by lia. by rewrite Nat.sub_diag.
Qed.

(** The loop of the cascade, started after the stages [done]. *)
Lemma nash_cascade_loop_from dt (rest : list Nonlinear_Reservoir) :
  forall (done : list Nonlinear_Reservoir) (Qlf excess : float),
    for_loop (length rest) (length done) (Kernel.nash_cascade_body dt)
      (Qlf, excess, done ++ rest) =
    Ok (let '(Qlf', excess', rest') := cascade_route dt rest Qlf excess in
        (Qlf', excess', done ++ rest')).
Proof.
  induction rest as [|r rest IH]; intros done Qlf excess.
  - reflexivity.
  - cbn [length for_loop cascade_route]. rewrite nash_cascade_body_middle.
    destruct (response_meters_per_second r Qlf dt) as [[r' velocity] excess'].
    cbn [mbind result_bind].
    rewrite (cons_middle r' done rest), app_assoc.
    replace (S (length done)) with (length (done ++ [r']))
      by (rewrite length_app; cbn; lia).
    rewrite IH.
    destruct (cascade_route dt rest (velocity + excess' / dt) excess')
      as [[Qlf' excess''] rest'].
    by rewrite <- app_assoc.
Qed.

(** What the routing writes, when it returns. *)
Lemma run_routing_Ok dt params state new_state fluxes giuh_obj et_params
    surface_runoff infiltration Sfc subsurface_outlets out :
  Kernel.run_routing dt params state new_state fluxes giuh_obj et_params
    surface_runoff infiltration Sfc subsurface_outlets = Ok out ->
  let soil := (response_meters_per_second
                 (Kernel.subsurface_reservoir params state subsurface_outlets)
                 infiltration dt).1.1 in
  let post := get_storage_height_meters soil in
  let et := Kernel.calc_evapotranspiration post et_params in
  let Qperc := velocity_meters_per_second_for_outlet soil perc_outlet_index in
  let gw := response_meters_per_second (Kernel.groundwater_res params state) Qperc dt in
  Kernel.new_state_out out =
    mk_tshirt_state (post - et.1) (get_storage_height_meters gw.1.1)
      (nash_cascade_storeage_meters new_state) /\
  et_loss_meters (Kernel.fluxes_out out) = et.1 /\
  groundwater_flow_meters_per_second (Kernel.fluxes_out out) = gw.1.2 /\
  soil_percolation_flow_meters_per_second (Kernel.fluxes_out out) = Qperc /\
  Kernel.et_params_out out = et.2 /\
  Kernel.return_code out = 0%Z.
Proof.
  intros Hrun. unfold Kernel.run_routing in Hrun.
  destruct (response_meters_per_second
              (Kernel.subsurface_reservoir params state subsurface_outlets)
              infiltration dt) as [[soil v] excess].
  cbn [fst snd].
  destruct (Kernel.calc_evapotranspiration (get_storage_height_meters soil) et_params)
    as [et_loss et_params'].
  apply bind_Ok in Hrun as (nash_cascade & _ & Hrun).
  apply bind_Ok in Hrun as ([[Qlf excess'] nash_cascade'] & _ & Hrun).
  destruct (response_meters_per_second (Kernel.groundwater_res params state)
              (velocity_meters_per_second_for_outlet soil perc_outlet_index) dt)
    as [[gw gw_flow] excess_gw_water].
  destruct (calc_giuh_output giuh_obj dt surface_runoff) as [runoff giuh_obj'].
  injection Hrun as <-. cbn. repeat split; reflexivity.
Qed.

(** The routing leaves the cascade storages of [new_state] as the caller
    passed them: no statement of [run] stores into them. *)
Lemma run_routing_keeps_cascade_storages dt params state new_state fluxes giuh_obj
    et_params surface_runoff infiltration Sfc subsurface_outlets out :
  Kernel.run_routing dt params state new_state fluxes giuh_obj et_params
    surface_runoff infiltration Sfc subsurface_outlets = Ok out ->
  nash_cascade_storeage_meters (Kernel.new_state_out out) =
  nash_cascade_storeage_meters new_state.
Proof.
  intros Hrun.
  destruct (run_routing_Ok _ _ _ _ _ _ _ _ _ _ _ _ Hrun) as (Hstate & _).
  rewrite Hstate. reflexivity.
Qed.

(** The soil reservoir of [run] is bounded by the depth of the column. *)
Lemma subsurface_reservoir_bounds params state subsurface_outlets :
  minimum_storage_meters (Kernel.subsurface_reservoir params state subsurface_outlets) = 0 /\
  maximum_storage_meters (Kernel.subsurface_reservoir params state subsurface_outlets)
    = depth params.
Proof. split; reflexivity. Qed.

(** The groundwater reservoir of [run]: bounds, initial storage and outlet. *)
Lemma groundwater_res_configuration params state :
  Kernel.groundwater_res params state =
  mk_Nonlinear_Reservoir 0 (max_groundwater_storage_meters params)
    (groundwater_storage_meters state)
    [mk_Reservoir_Outlet (Cgw params) 1 0 (Cgw params * (exp (expon params) - 1))].
Proof. reflexivity. Qed.

(** X16. With an engine that honours its contract and a non-negative
    [max_groundwater_storage_meters], the groundwater storage that the routing
    of [run] (from line 316) returns lies between 0 and
    [max_groundwater_storage_meters]. *)
Lemma run_groundwater_storage_within_bounds `{!ReservoirContract}
    dt params state new_state fluxes giuh_obj et_params
    surface_runoff infiltration Sfc subsurface_outlets out :
  (0 <=? max_groundwater_storage_meters params) = true ->
  Kernel.run_routing dt params state new_state fluxes giuh_obj et_params
    surface_runoff infiltration Sfc subsurface_outlets = Ok out ->
  (0 <=? groundwater_storage_meters (Kernel.new_state_out out)) = true /\
  (groundwater_storage_meters (Kernel.new_state_out out)
     <=? max_groundwater_storage_meters params) = true.
Proof.
  intros Hmax Hrun.
  destruct (run_routing_Ok _ _ _ _ _ _ _ _ _ _ _ _ Hrun) as (Hstate & _).
  rewrite Hstate. cbn [groundwater_storage_meters].
  apply (response_storage_within_bounds (Kernel.groundwater_res params state)).
  exact Hmax.
Qed.

(** With an engine that honours its contract, the soil reservoir keeps its
    storage after the step between 0 and the depth of the column. *)
Lemma run_soil_reservoir_within_depth `{!ReservoirContract}
    dt params state subsurface_outlets infiltration :
  (0 <=? depth params) = true ->
  let soil := (response_meters_per_second
                 (Kernel.subsurface_reservoir params state subsurface_outlets)
                 infiltration dt).1.1 in
  (0 <=? get_storage_height_meters soil) = true /\
  (get_storage_height_meters soil <=? depth params) = true.
Proof.
  intros Hdepth.
  apply (response_storage_within_bounds
           (Kernel.subsurface_reservoir params state subsurface_outlets)).
  exact Hdepth.
Qed.

End KernelProperties.

(** ** Loops that fill a vector from an array *)

(** A loop whose iteration [i] stores [g (xs[i])] at index [i] fills the
    vector with the images of the array, in order. *)
Lemma for_loop_fill {A} (g : float -> A) (body : nat -> list A -> result (list A))
    (xs : list float) :
  (forall i v x, xs !! i = Some x -> (i < length v)%nat ->
                 body i v = Ok (<[i:=g x]> v)) ->
  forall (k : nat) (done tail : list A),
    length tail = k -> (length done + k <= length xs)%nat ->
    for_loop k (length done) body (done ++ tail) =
    Ok (done ++ map g (take k (drop (length done) xs))).
Proof.
  intros Hbody k. induction k as [|k IH]; intros done tail Htail Hxs.
  - destruct tail; [|discriminate]. reflexivity.
  - destruct tail as [|t tail]; [discriminate|]. cbn in Htail.
    destruct (lookup_lt_is_Some_2 xs (length done)) as [x Hx]; [lia|].
    cbn [for_loop]. rewrite (Hbody _ _ x Hx) by (rewrite length_app; cbn; lia).
    cbn [mbind result_bind].
    rewrite insert_app_r_alt by lia. rewrite Nat.sub_diag. cbn [insert list_insert].
    rewrite (cons_middle (g x) done tail), app_assoc.
    replace (S (length done)) with (length (done ++ [g x]))
      by (rewrite length_app; cbn; lia).
    rewrite IH by (rewrite ?length_app; cbn; lia).
    rewrite (drop_S xs x (length done) Hx).
    rewrite length_app. cbn [length]. rewrite Nat.add_1_r.
    cbn [take map]. by rewrite <- app_assoc.
Qed.

(** A loop whose first iteration faults ends in that fault. *)
Lemma for_loop_first_fault {S} (n i : nat) (body : nat -> S -> result S) (s : S) e :
  body i s = Fault e -> for_loop (Datatypes.S n) i body s = Fault e.
Proof. intros Hb. cbn [for_loop]. rewrite Hb. reflexivity. Qed.

(** ** The reservoirs of the model and of the kernel *)

Section ModelProperties.
Context `{ReservoirEngine} `{Libm}.
Variable calc_Sfc : tshirt_params -> option tshirt_state -> float.

(** C10. The one-argument constructor passes a state whose cascade pointer
    is null; with [nash_n > 0] the first iteration of the cascade loop reads
    through it, and the construction ends in the null-pointer fault. *)
Theorem tshirt_model_ctor_default_null_cascade (params : tshirt_params) :
  (0 < nash_n params)%Z ->
  Model.tshirt_model_ctor_default calc_Sfc params = Fault NullPointer.
Proof.
  intros Hn. unfold Model.tshirt_model_ctor_default, Model.tshirt_model_ctor.
  rewrite vec_resize_empty by lia. cbn [mbind result_bind].
  rewrite length_replicate.
  destruct (Z.to_nat (nash_n params)) as [|k] eqn:Hk; [lia|].
  rewrite (for_loop_first_fault k 0 _ _ NullPointer); reflexivity.
Qed.

(** Without stages the one-argument constructor builds the model. *)
Lemma tshirt_model_ctor_default_no_cascade (params : tshirt_params) :
  nash_n params = 0%Z ->
  is_ok (Model.tshirt_model_ctor_default calc_Sfc params) = true.
Proof.
  intros Hn. unfold Model.tshirt_model_ctor_default, Model.tshirt_model_ctor.
  rewrite Hn. reflexivity.
Qed.

(** The cascade loop of the constructor on a state whose array holds a
    storage for every stage. *)
Lemma model_cascade_loop (params : tshirt_params) (s : tshirt_state)
    (xs : list float) (Sfc : float) (n : nat) :
  nash_cascade_storeage_meters s = Some xs -> (n <= length xs)%nat ->
  for_loop n 0 (fun i soil_lf_nash_res =>
      s ← Model.deref (Some s);
      storage ← ptr_read (nash_cascade_storeage_meters s) i;
      vec_write soil_lf_nash_res i
        (Some (Nonlinear_Reservoir_single 0.0 (max_soil_storage_meters params)
                 storage (Kn params) 1.0 Sfc (max_lateral_flow params))))
    (replicate n None) =
  Ok (map (fun x => Some (cascade_stage params Sfc x)) (take n xs)).
Proof.
  intros Hxs Hn.
  pose proof (for_loop_fill (fun x => Some (cascade_stage params Sfc x))
    (fun i (v : list (option Nonlinear_Reservoir)) =>
      s ← Model.deref (Some s);
      storage ← ptr_read (nash_cascade_storeage_meters s) i;
      vec_write v i
        (Some (Nonlinear_Reservoir_single 0.0 (max_soil_storage_meters params)
                 storage (Kn params) 1.0 Sfc (max_lateral_flow params)))) xs) as Hfill.
  specialize (Hfill ltac:(intros i v x Hx Hi; cbn [Model.deref mbind result_bind];
    rewrite Hxs; unfold ptr_read, vec_read; rewrite Hx; cbn [mbind result_bind];
    by rewrite vec_write_lt) n [] (replicate n None)).
  cbn [length app Nat.add] in Hfill. rewrite drop_0 in Hfill.
  apply Hfill; [apply length_replicate | exact Hn].
Qed.

(** The constructor on a state whose array holds a storage for every stage:
    the model it builds. *)
Lemma tshirt_model_ctor_Ok (params : tshirt_params) (s : tshirt_state) (xs : list float) :
  nash_cascade_storeage_meters s = Some xs ->
  (0 <= nash_n params)%Z -> (Z.to_nat (nash_n params) <= length xs)%nat ->
  let Sfc := calc_Sfc params (Some s) in
  Model.tshirt_model_ctor calc_Sfc params (Some s) =
  Ok (Model.mk_tshirt_model (Some s) params (Some s)
        (map (fun x => Some (cascade_stage params Sfc x))
           (take (Z.to_nat (nash_n params)) xs))
        (mk_Nonlinear_Reservoir 0 (depth params) (soil_storage_meters s)
           (soil_outlets params Sfc))
        (mk_Nonlinear_Reservoir 0 (max_groundwater_storage_meters params)
           (groundwater_storage_meters s)
           [mk_Reservoir_Outlet (Cgw params) 1 0
              (Cgw params * (exp (expon params) - 1))])
        None).
Proof.
  intros Hxs Hn Hlen Sfc. unfold Model.tshirt_model_ctor.
  rewrite vec_resize_empty by exact Hn. cbn [mbind result_bind].
  rewrite length_replicate.
  rewrite (model_cascade_loop params s xs _ _ Hxs Hlen).
  reflexivity.
Qed.

End ModelProperties.

Section Agreement.
Context `{ReservoirEngine} `{Libm} `{Constants}.

(** [init_nash_cascade_vector] on a state whose array holds a storage for
    every stage. *)
Lemma init_nash_cascade_vector_Ok (params : tshirt_params) (s : tshirt_state)
    (xs : list float) (activation max_flow_velocity : float) :
  nash_cascade_storeage_meters s = Some xs ->
  (0 <= nash_n params)%Z -> (Z.to_nat (nash_n params) <= length xs)%nat ->
  Kernel.init_nash_cascade_vector [] params s activation max_flow_velocity =
  Ok (map (fun x => mk_Nonlinear_Reservoir 0 (max_soil_storage_meters params) x
                      [mk_Reservoir_Outlet (Kn params) 1 activation max_flow_velocity])
        (take (Z.to_nat (nash_n params)) xs)).
Proof.
  intros Hxs Hn Hlen. unfold Kernel.init_nash_cascade_vector.
  rewrite vec_resize_empty by exact Hn. cbn [mbind result_bind].
  rewrite length_replicate.
  pose proof (for_loop_fill
    (fun x => mk_Nonlinear_Reservoir 0 (max_soil_storage_meters params) x
                [mk_Reservoir_Outlet (Kn params) 1 activation max_flow_velocity])
    (fun i (reservoirs : list Nonlinear_Reservoir) =>
      storage ← ptr_read (nash_cascade_storeage_meters s) i;
      vec_write reservoirs i
        (Nonlinear_Reservoir_single 0 (max_soil_storage_meters params) storage
           (Kn params) 1 activation max_flow_velocity)) xs) as Hfill.
  specialize (Hfill ltac:(intros i v x Hx Hi; rewrite Hxs; unfold ptr_read, vec_read;
    rewrite Hx; cbn [mbind result_bind]; by rewrite vec_write_lt)
    (Z.to_nat (nash_n params)) [] (replicate (Z.to_nat (nash_n params)) default_reservoir)).
  cbn [length app Nat.add] in Hfill. rewrite drop_0 in Hfill.
  apply Hfill; [apply length_replicate | exact Hlen].
Qed.

(** What the two construction paths share. When the model computes the same
    [Sfc] as the kernel, the constructor builds the groundwater reservoir and
    the cascade stages of [run], and the soil reservoir that [run] would
    build from an outlet vector of two slots. *)
Lemma model_and_kernel_reservoirs (calc_Sfc : tshirt_params -> option tshirt_state -> float)
    (params : tshirt_params) (s : tshirt_state) (xs : list float) :
  nash_cascade_storeage_meters s = Some xs ->
  (0 <= nash_n params)%Z -> (Z.to_nat (nash_n params) <= length xs)%nat ->
  calc_Sfc params (Some s) = Kernel.calc_soil_field_capacity_storage params s ->
  let Sfc := Kernel.calc_soil_field_capacity_storage params s in
  exists m cascade,
    Model.tshirt_model_ctor calc_Sfc params (Some s) = Ok m /\
    Kernel.init_nash_cascade_vector [] params s Sfc (max_lateral_flow params)
      = Ok cascade /\
    Model.soil_lf_nash_res m = map Some cascade /\
    Model.groundwater_reservoir m = Kernel.groundwater_res params s /\
    Model.soil_reservoir m = Kernel.subsurface_reservoir params s (soil_outlets params Sfc).
Proof.
  intros Hxs Hn Hlen HSfc Sfc.
  eexists. eexists. split; [|split].
  - rewrite (tshirt_model_ctor_Ok calc_Sfc params s xs Hxs Hn Hlen). reflexivity.
  - apply (init_nash_cascade_vector_Ok params s xs _ _ Hxs Hn Hlen).
  - cbn. rewrite HSfc. fold Sfc. split; [|split; reflexivity].
    rewrite <- list_fmap_compose. reflexivity.
Qed.

End Agreement.

(** ** The scenario, evaluated *)

Section ScenarioFacts.
#[local] Existing Instances Scenario.linear_engine Scenario.libm Scenario.constants
  Scenario.deficit_partitioner Scenario.giuh_passthrough.

(** The time step of the scenario: four seconds, an input of one metre on
    the dry catchment, and an outlet vector with the two slots that the
    constructor of the model gives its own. *)
Lemma scenario_step (delta : float) (new_state : tshirt_state) :
  Kernel.run_from (pdm := Scenario.pdm03_shift delta) (replicate 2 default_outlet)
    4 catchment dry_state new_state no_fluxes 1 tt 0 =
  Ok (Kernel.mk_run_result (pdm := Scenario.pdm03_shift delta) 0
        (mk_tshirt_state (1 - (1 + delta - 1)) 0 (nash_cascade_storeage_meters new_state))
        (mk_tshirt_fluxes 0.5 0 0 0 (1 + delta - 1))
        tt (1 + delta)).
Proof. destruct new_state as [soil gw cascade]. vm_compute. reflexivity. Qed.

(** C1, on the scenario. The soil reservoir of [run] and the one of the
    model constructor are bounded by [depth = 2], not by
    [max_soil_storage_meters = 0.5]; the step leaves a soil storage of one
    metre, inside the bounds of the reservoir and above
    [max_soil_storage_meters]. *)
Theorem soil_storage_exceeds_max_soil_storage :
  let Sfc := Kernel.calc_soil_field_capacity_storage catchment dry_state in
  max_soil_storage_meters catchment = 0.5 /\
  maximum_storage_meters
    (Kernel.subsurface_reservoir catchment dry_state (soil_outlets catchment Sfc)) = 2 /\
  (exists m, Model.tshirt_model_ctor model_Sfc catchment (Some dry_state) = Ok m /\
             maximum_storage_meters (Model.soil_reservoir m) = 2) /\
  exists out,
    Kernel.run_from (pdm := Scenario.pdm03_shift 0) (replicate 2 default_outlet)
      4 catchment dry_state (tshirt_state_default_cascade 0 0) no_fluxes 1 tt 0 = Ok out /\
    soil_storage_meters (Kernel.new_state_out out) = 1 /\
    (soil_storage_meters (Kernel.new_state_out out) <=? 2) = true /\
    (max_soil_storage_meters catchment <? soil_storage_meters (Kernel.new_state_out out))
      = true.
Proof.
  intros Sfc. split; [reflexivity|]. split; [reflexivity|]. split.
  - eexists. split; [vm_compute; reflexivity | reflexivity].
  - eexists. split; [apply scenario_step|]. cbn [Kernel.new_state_out soil_storage_meters].
    repeat split; vm_compute; reflexivity.
Qed.

(** C3, on the scenario. The groundwater outlet of [run] and the one of the
    model constructor have the coefficient [Cgw], the activation threshold 0
    and the maximum velocity [Cgw * (exp expon - 1)], and the exponent 1
    where [expon] is 5. *)
Theorem groundwater_outlet_exponent_is_one :
  expon catchment = 5 /\
  outlets (Kernel.groundwater_res catchment dry_state) =
    [mk_Reservoir_Outlet (Cgw catchment) 1 0
       (Cgw catchment * (exp (expon catchment) - 1))] /\
  (exists m, Model.tshirt_model_ctor model_Sfc catchment (Some dry_state) = Ok m /\
             Model.groundwater_reservoir m = Kernel.groundwater_res catchment dry_state) /\
  (1 =? expon catchment) = false.
Proof.
  split; [reflexivity|]. split; [reflexivity|]. split; [|reflexivity].
  eexists. split; [vm_compute; reflexivity | vm_compute; reflexivity].
Qed.

(** C7, on the scenario. The constructor of the model builds its soil
    reservoir with the two outlets, and [run], given the same parameters and
    state, faults on its empty outlet vector before it builds any
    reservoir. *)
Theorem model_builds_reservoirs_where_run_faults :
  let Sfc := Kernel.calc_soil_field_capacity_storage catchment dry_state in
  (exists m, Model.tshirt_model_ctor model_Sfc catchment (Some dry_state) = Ok m /\
             Model.soil_reservoir m =
               mk_Nonlinear_Reservoir 0 2 0 (soil_outlets catchment Sfc)) /\
  Kernel.run (pdm := Scenario.pdm03_shift 0) 4 catchment dry_state
    (tshirt_state_default_cascade 0 0) no_fluxes 1 tt 0 = Fault OutOfBounds.
Proof.
  intros Sfc. split; [|apply run_from_short; cbn; lia].
  eexists. split; [vm_compute; reflexivity | vm_compute; reflexivity].
Qed.

End ScenarioFacts.

(** ** The theorems with a hypothesis, applied to the scenario *)

Section ScenarioWitnesses.
#[local] Existing Instances Scenario.linear_engine Scenario.libm Scenario.constants
  Scenario.deficit_partitioner Scenario.giuh_passthrough.

(** The catchment has two stages, and its model cannot be built from the
    default state. *)
Lemma tshirt_model_ctor_default_null_cascade_witness :
  (0 < nash_n catchment)%Z /\
  Model.tshirt_model_ctor_default model_Sfc catchment = Fault NullPointer.
Proof.
  split; [reflexivity|].
  apply (tshirt_model_ctor_default_null_cascade model_Sfc catchment). reflexivity.
Defined.

End ScenarioWitnesses.

(** ** The scenario engine honours the contract of the spec *)

Lemma SFcompare_refl (x : spec_float) : x <> S754_nan -> SFcompare x x = Some Eq.
Proof.
  destruct x as [s|s| |s m e]; intros Hx; cbn.
  - reflexivity.
  - by destruct s.
  - congruence.
  - rewrite Z.compare_refl, Pos.compare_cont_refl. by destruct s.
Qed.

(** Two floats that compare are not NaN, and so compare with themselves. *)
Lemma leb_true_refl (x y : float) :
  (x <=? y) = true -> (x <=? x) = true /\ (y <=? y) = true.
Proof.
  rewrite !leb_spec. unfold SFleb. intros Hxy.
  assert (Prim2SF x <> S754_nan /\ Prim2SF y <> S754_nan) as [Hx Hy].
  { destruct (Prim2SF x), (Prim2SF y); cbn in Hxy; split; congruence. }
  by rewrite !SFcompare_refl.
Qed.

#[global] Instance linear_engine_contract : @ReservoirContract Scenario.linear_engine.
Proof.
  split.
  - intros r q dt. cbn. repeat split; reflexivity.
  - intros r q dt Hbounds. cbn.
    destruct (leb_true_refl _ _ Hbounds) as [Hmin Hmax].
    set (s := _ - _ * dt).
    destruct (s <=? maximum_storage_meters r) eqn:Hs;
      [destruct (minimum_storage_meters r <=? s) eqn:Hs'
      |destruct (minimum_storage_meters r <=? maximum_storage_meters r) eqn:Hs'];
      split; congruence.
Qed.

(** * Further properties of the code *)

(** ** More on loops that fill a vector *)

(** A loop whose iteration [i] computes a value from [i] alone and stores it
    at index [i] does not depend on what the vector held. *)
Lemma for_loop_fill_independent {A} (f : nat -> result A)
    (body : nat -> list A -> result (list A)) :
  (forall i v, body i v = x ← f i; vec_write v i x) ->
  forall (k : nat) (done tail tail' : list A),
    length tail = k -> length tail' = k ->
    for_loop k (length done) body (done ++ tail) =
    for_loop k (length done) body (done ++ tail').
Proof.
  intros Hbody k. induction k as [|k IH]; intros done tail tail' Ht Ht'.
  - destruct tail, tail'; try discriminate. reflexivity.
  - destruct tail as [|t tail], tail' as [|t' tail']; try discriminate.
    cbn in Ht, Ht'. cbn [for_loop]. rewrite !Hbody.
    destruct (f (length done)) as [x|e]; [|reflexivity]. cbn [mbind result_bind].
    rewrite !vec_write_lt by (rewrite length_app; cbn; lia).
    cbn [mbind result_bind].
    rewrite !insert_app_r_alt by lia. rewrite Nat.sub_diag. cbn [insert list_insert].
    rewrite (cons_middle x done tail), (cons_middle x done tail'), !app_assoc.
    replace (S (length done)) with (length (done ++ [x]))
      by (rewrite length_app; cbn; lia).
    apply IH; lia.
Qed.

(** A filling loop that runs past the end of the array faults with the fault
    of the read at the first index outside it. *)
Lemma for_loop_fill_fault {A} (g : float -> A) (body : nat -> list A -> result (list A))
    (xs : list float) (e : fault) :
  (forall i v x, xs !! i = Some x -> (i < length v)%nat ->
                 body i v = Ok (<[i:=g x]> v)) ->
  (forall v, body (length xs) v = Fault e) ->
  forall (k : nat) (done tail : list A),
    length tail = k -> (length done <= length xs < length done + k)%nat ->
    for_loop k (length done) body (done ++ tail) = Fault e.
Proof.
  intros Hbody Hend k. induction k as [|k IH]; intros done tail Htail Hxs; [lia|].
  destruct tail as [|t tail]; [discriminate|]. cbn in Htail.
  destruct (decide (length done = length xs)) as [Heq|Hne].
  - apply for_loop_first_fault. rewrite Heq. apply Hend.
  - destruct (lookup_lt_is_Some_2 xs (length done)) as [x Hx]; [lia|].
    cbn [for_loop]. rewrite (Hbody _ _ x Hx) by (rewrite length_app; cbn; lia).
    cbn [mbind result_bind].
    rewrite insert_app_r_alt by lia. rewrite Nat.sub_diag. cbn [insert list_insert].
    rewrite (cons_middle (g x) done tail), app_assoc.
    replace (S (length done)) with (length (done ++ [g x]))
      by (rewrite length_app; cbn; lia).
    apply IH; [lia|]. rewrite length_app. cbn. lia.
Qed.

Lemma vec_resize_length {A} (d : A) (v w : list A) (n : Z) :
  vec_resize d v n = Ok w -> length w = Z.to_nat n.
Proof.
  unfold vec_resize. destruct (n <? 0)%Z; [discriminate|].
  intros [= <-]. rewrite length_app, length_take, length_replicate. lia.
Qed.

(** ** [init_nash_cascade_vector] *)

Section CascadeInit.
Context {engine : ReservoirEngine}.

(** The body of the loop of [init_nash_cascade_vector] computes the stage
    from the index and stores it. *)
Lemma init_body_shape (params : tshirt_params) (s : tshirt_state)
    (activation max_flow_velocity : float) (i : nat) (v : list Nonlinear_Reservoir) :
  (storage ← ptr_read (nash_cascade_storeage_meters s) i;
   vec_write v i
     (Nonlinear_Reservoir_single 0 (max_soil_storage_meters params) storage
        (Kn params) 1 activation max_flow_velocity)) =
  (x ← (storage ← ptr_read (nash_cascade_storeage_meters s) i;
        Ok (Nonlinear_Reservoir_single 0 (max_soil_storage_meters params) storage
              (Kn params) 1 activation max_flow_velocity));
   vec_write v i x).
Proof. by destruct (ptr_read (nash_cascade_storeage_meters s) i). Qed.

(** What the vector held before the call is of no consequence. *)
Lemma init_nash_cascade_vector_from_empty (v : list Nonlinear_Reservoir)
    (params : tshirt_params) (s : tshirt_state) (activation max_flow_velocity : float) :
  Kernel.init_nash_cascade_vector v params s activation max_flow_velocity =
  Kernel.init_nash_cascade_vector [] params s activation max_flow_velocity.
Proof.
  unfold Kernel.init_nash_cascade_vector.
  destruct (vec_resize default_reservoir v (nash_n params)) as [w|e] eqn:Hw;
    destruct (vec_resize default_reservoir [] (nash_n params)) as [w'|e'] eqn:Hw';
    unfold vec_resize in Hw, Hw'; destruct (nash_n params <? 0)%Z eqn:Hn;
    try discriminate; [|congruence].
  pose proof (vec_resize_length default_reservoir v w (nash_n params)) as Hl.
  pose proof (vec_resize_length default_reservoir [] w' (nash_n params)) as Hl'.
  unfold vec_resize in Hl, Hl'. rewrite Hn in Hl, Hl'.
  specialize (Hl Hw). specialize (Hl' Hw').
  cbn [mbind result_bind]. rewrite Hl, Hl'.
  apply (for_loop_fill_independent _ _ (init_body_shape params s activation
           max_flow_velocity) (Z.to_nat (nash_n params)) [] w w' Hl Hl').
Qed.

(** X1. On a state whose array holds a storage for every stage,
    [init_nash_cascade_vector] returns one reservoir per stage, in the order
    of the array: bounds 0 and [max_soil_storage_meters], the storage of the
    array, and the single outlet [(Kn, 1, activation, max_flow_velocity)];
    whatever the vector held is replaced. *)
Theorem init_nash_cascade_vector_fills (v : list Nonlinear_Reservoir)
    (params : tshirt_params) (s : tshirt_state) (xs : list float)
    (activation max_flow_velocity : float) :
  nash_cascade_storeage_meters s = Some xs ->
  (0 <= nash_n params)%Z -> (Z.to_nat (nash_n params) <= length xs)%nat ->
  Kernel.init_nash_cascade_vector v params s activation max_flow_velocity =
  Ok (map (fun x => mk_Nonlinear_Reservoir 0 (max_soil_storage_meters params) x
                      [mk_Reservoir_Outlet (Kn params) 1 activation max_flow_velocity])
        (take (Z.to_nat (nash_n params)) xs)).
Proof.
  intros Hxs Hn Hlen. rewrite init_nash_cascade_vector_from_empty.
  unfold Kernel.init_nash_cascade_vector.
  rewrite vec_resize_empty by exact Hn. cbn [mbind result_bind].
  rewrite length_replicate.
  apply (for_loop_fill
    (fun x => mk_Nonlinear_Reservoir 0 (max_soil_storage_meters params) x
                [mk_Reservoir_Outlet (Kn params) 1 activation max_flow_velocity])
    _ xs) with (done := []); [|apply length_replicate|cbn; lia].
  intros i w x Hx Hi. rewrite Hxs. unfold ptr_read, vec_read. rewrite Hx.
  cbn [mbind result_bind]. by rewrite vec_write_lt.
Qed.

(** X2. When the array of the state is shorter than the number of stages,
    [init_nash_cascade_vector] reads past its end: the fault [OutOfBounds]. *)
Theorem init_nash_cascade_vector_short_array (v : list Nonlinear_Reservoir)
    (params : tshirt_params) (s : tshirt_state) (xs : list float)
    (activation max_flow_velocity : float) :
  nash_cascade_storeage_meters s = Some xs ->
  (length xs < Z.to_nat (nash_n params))%nat ->
  Kernel.init_nash_cascade_vector v params s activation max_flow_velocity =
  Fault OutOfBounds.
Proof.
  intros Hxs Hlen. rewrite init_nash_cascade_vector_from_empty.
  unfold Kernel.init_nash_cascade_vector.
  rewrite vec_resize_empty by lia. cbn [mbind result_bind].
  rewrite length_replicate.
  apply (for_loop_fill_fault
    (fun x => mk_Nonlinear_Reservoir 0 (max_soil_storage_meters params) x
                [mk_Reservoir_Outlet (Kn params) 1 activation max_flow_velocity])
    _ xs) with (done := []); [| |apply length_replicate|cbn; lia].
  - intros i w x Hx Hi. rewrite Hxs. unfold ptr_read, vec_read. rewrite Hx.
    cbn [mbind result_bind]. by rewrite vec_write_lt.
  - intros w. rewrite Hxs. unfold ptr_read, vec_read.
    by rewrite lookup_ge_None_2.
Qed.

(** X3. With at least one stage and a null array pointer in the state,
    [init_nash_cascade_vector] ends in the fault [NullPointer]. *)
Theorem init_nash_cascade_vector_null_array (v : list Nonlinear_Reservoir)
    (params : tshirt_params) (s : tshirt_state) (activation max_flow_velocity : float) :
  nash_cascade_storeage_meters s = None -> (0 < nash_n params)%Z ->
  Kernel.init_nash_cascade_vector v params s activation max_flow_velocity =
  Fault NullPointer.
Proof.
  intros Hnull Hn. rewrite init_nash_cascade_vector_from_empty.
  unfold Kernel.init_nash_cascade_vector.
  rewrite vec_resize_empty by lia. cbn [mbind result_bind].
  rewrite length_replicate.
  destruct (Z.to_nat (nash_n params)) as [|k] eqn:Hk; [lia|].
  apply for_loop_first_fault. by rewrite Hnull.
Qed.

(** A negative number of stages makes [resize] throw: the fault
    [LengthError], before the state is read. *)
Theorem init_nash_cascade_vector_negative_count (v : list Nonlinear_Reservoir)
    (params : tshirt_params) (s : tshirt_state) (activation max_flow_velocity : float) :
  (nash_n params < 0)%Z ->
  Kernel.init_nash_cascade_vector v params s activation max_flow_velocity =
  Fault LengthError.
Proof.
  intros Hn. unfold Kernel.init_nash_cascade_vector.
  by rewrite vec_resize_negative.
Qed.

(** X4. The result of [init_nash_cascade_vector], value or fault, is the
    same for any two vectors passed to it: the call reads nothing of the
    vector it is given. *)
Theorem init_nash_cascade_vector_ignores_vector (v v' : list Nonlinear_Reservoir)
    (params : tshirt_params) (s : tshirt_state) (activation max_flow_velocity : float) :
  Kernel.init_nash_cascade_vector v params s activation max_flow_velocity =
  Kernel.init_nash_cascade_vector v' params s activation max_flow_velocity.
Proof.
  rewrite (init_nash_cascade_vector_from_empty v).
  by rewrite (init_nash_cascade_vector_from_empty v').
Qed.

End CascadeInit.

(** ** The constructors of [tshirt_model] *)

Section ModelConstruction.
Context {engine : ReservoirEngine} {libm : Libm}.
Variable calc_Sfc : tshirt_params -> option tshirt_state -> float.

(** The body of the cascade loop of the constructor, on a non-null state
    whose array holds a storage at the index. *)
Lemma model_cascade_body_Ok (params : tshirt_params) (s : tshirt_state)
    (xs : list float) (Sfc : float) (i : nat)
    (v : list (option Nonlinear_Reservoir)) (x : float) :
  nash_cascade_storeage_meters s = Some xs -> xs !! i = Some x ->
  (i < length v)%nat ->
  (s' ← Model.deref (Some s);
   storage ← ptr_read (nash_cascade_storeage_meters s') i;
   vec_write v i
     (Some (Nonlinear_Reservoir_single 0.0 (max_soil_storage_meters params)
              storage (Kn params) 1.0 Sfc (max_lateral_flow params)))) =
  Ok (<[i:=Some (cascade_stage params Sfc x)]> v).
Proof.
  intros Hxs Hx Hi. cbn [Model.deref mbind result_bind]. rewrite Hxs.
  unfold ptr_read, vec_read. rewrite Hx. cbn [mbind result_bind].
  by rewrite vec_write_lt.
Qed.

(** X6. From a non-null initial state whose array holds a storage for every
    stage, the constructor builds the model: the parameters as given, the
    current and the previous state both the initial state, no fluxes, one
    reservoir per stage in the order of the array, the soil reservoir with
    bounds 0 and [depth] and the two outlets, and the groundwater reservoir
    with bounds 0 and [max_groundwater_storage_meters]. *)
Theorem tshirt_model_ctor_builds (params : tshirt_params) (s : tshirt_state)
    (xs : list float) :
  nash_cascade_storeage_meters s = Some xs ->
  (0 <= nash_n params)%Z -> (Z.to_nat (nash_n params) <= length xs)%nat ->
  let Sfc := calc_Sfc params (Some s) in
  exists m,
    Model.tshirt_model_ctor calc_Sfc params (Some s) = Ok m /\
    Model.model_params m = params /\
    Model.current_state m = Some s /\ Model.previous_state m = Some s /\
    Model.fluxes m = None /\
    length (Model.soil_lf_nash_res m) = Z.to_nat (nash_n params) /\
    (forall i x, (i < Z.to_nat (nash_n params))%nat -> xs !! i = Some x ->
       Model.soil_lf_nash_res m !! i =
       Some (Some (mk_Nonlinear_Reservoir 0 (max_soil_storage_meters params) x
                     [mk_Reservoir_Outlet (Kn params) 1 Sfc (max_lateral_flow params)]))) /\
    Model.soil_reservoir m =
      mk_Nonlinear_Reservoir 0 (depth params) (soil_storage_meters s)
        [mk_Reservoir_Outlet (Klf params) 1 Sfc (max_lateral_flow params);
         mk_Reservoir_Outlet (satdk params * slope params) 1 Sfc (satdk params)] /\
    Model.groundwater_reservoir m =
      mk_Nonlinear_Reservoir 0 (max_groundwater_storage_meters params)
        (groundwater_storage_meters s)
        [mk_Reservoir_Outlet (Cgw params) 1 0 (Cgw params * (exp (expon params) - 1))].
Proof.
  intros Hxs Hn Hlen Sfc. eexists. split.
  - apply (tshirt_model_ctor_Ok calc_Sfc params s xs Hxs Hn Hlen).
  - cbn. repeat split.
    + rewrite length_map, length_take. lia.
    + intros i x Hi Hx. rewrite list_lookup_fmap, lookup_take_lt by exact Hi.
      by rewrite Hx.
Qed.

(** X7. From a null initial state the constructor ends in the fault
    [NullPointer], in the cascade loop when there are stages and at the soil
    reservoir when there are none. *)
Theorem tshirt_model_ctor_null_state (params : tshirt_params) :
  (0 <= nash_n params)%Z ->
  Model.tshirt_model_ctor calc_Sfc params None = Fault NullPointer.
Proof.
  intros Hn. unfold Model.tshirt_model_ctor.
  rewrite vec_resize_empty by exact Hn. cbn [mbind result_bind].
  rewrite length_replicate.
  destruct (Z.to_nat (nash_n params)) as [|k]; [reflexivity|].
  by rewrite (for_loop_first_fault k 0 _ _ NullPointer).
Qed.

(** X8. When the array of the initial state is shorter than the number of
    stages, the cascade loop of the constructor reads past its end: the fault
    [OutOfBounds]. *)
Theorem tshirt_model_ctor_short_array (params : tshirt_params) (s : tshirt_state)
    (xs : list float) :
  nash_cascade_storeage_meters s = Some xs ->
  (length xs < Z.to_nat (nash_n params))%nat ->
  Model.tshirt_model_ctor calc_Sfc params (Some s) = Fault OutOfBounds.
Proof.
  intros Hxs Hlen. unfold Model.tshirt_model_ctor.
  rewrite vec_resize_empty by lia. cbn [mbind result_bind].
  rewrite length_replicate.
  match goal with
  | |- context [for_loop ?k 0 ?body ?v] =>
      assert (for_loop k 0 body v = Fault OutOfBounds) as ->; [|reflexivity]
  end.
  apply (for_loop_fill_fault
    (fun x => Some (cascade_stage params (calc_Sfc params (Some s)) x))
    _ xs) with (done := []); [| |apply length_replicate|cbn; lia].
  - intros i v x Hx Hi. by apply (model_cascade_body_Ok params s xs).
  - intros v. cbn [Model.deref mbind result_bind]. rewrite Hxs.
    unfold ptr_read, vec_read. by rewrite lookup_ge_None_2.
Qed.

(** A negative number of stages makes [resize] throw: the constructor
    ends in the fault [LengthError], whatever the initial state. *)
Theorem tshirt_model_ctor_negative_count (params : tshirt_params)
    (initial_state : option tshirt_state) :
  (nash_n params < 0)%Z ->
  Model.tshirt_model_ctor calc_Sfc params initial_state = Fault LengthError.
Proof.
  intros Hn. unfold Model.tshirt_model_ctor. by rewrite vec_resize_negative.
Qed.

(** X9. The one-argument constructor builds a model exactly when the
    parameters have no stage. *)
Theorem tshirt_model_ctor_default_builds_iff (params : tshirt_params) :
  is_ok (Model.tshirt_model_ctor_default calc_Sfc params) = true <->
  nash_n params = 0%Z.
Proof.
  unfold Model.tshirt_model_ctor_default. split.
  - intros Hok. destruct (Z.lt_trichotomy (nash_n params) 0) as [Hn|[Hn|Hn]];
      [|exact Hn|].
    + by rewrite tshirt_model_ctor_negative_count in Hok.
    + unfold Model.tshirt_model_ctor in Hok.
      rewrite vec_resize_empty in Hok by lia. cbn [mbind result_bind] in Hok.
      rewrite length_replicate in Hok.
      destruct (Z.to_nat (nash_n params)) as [|k] eqn:Hk; [lia|].
      by rewrite (for_loop_first_fault k 0 _ _ NullPointer) in Hok.
  - intros Hn. unfold Model.tshirt_model_ctor. by rewrite Hn.
Qed.

End ModelConstruction.

(** ** The routing of [run] *)

Section Routing.
Context {engine : ReservoirEngine} {libm : Libm} {constants : Constants}
  {partitioner : Partitioner} {giuh : Giuh} {pdm : Pdm03}.

(** The loop over the cascade returns, with the three components of the
    routing. *)
Lemma nash_cascade_loop_components dt (Qlf excess : float)
    (nash_cascade : list Nonlinear_Reservoir) :
  exists Qlf' excess' nash_cascade',
    cascade_route dt nash_cascade Qlf excess = (Qlf', excess', nash_cascade') /\
    Kernel.nash_cascade_loop dt Qlf excess nash_cascade =
      Ok (Qlf', excess', nash_cascade').
Proof.
  destruct (cascade_route dt nash_cascade Qlf excess) as [[Qlf' excess'] rest'] eqn:Hroute.
  exists Qlf', excess', rest'. split; [reflexivity|].
  unfold Kernel.nash_cascade_loop.
  change (for_loop (length nash_cascade) (length (@nil Nonlinear_Reservoir))
            (Kernel.nash_cascade_body dt) (Qlf, excess, [] ++ nash_cascade) =
          Ok (Qlf', excess', rest')).
  rewrite nash_cascade_loop_from. by rewrite Hroute.
Qed.

(** The routing in closed form, once the cascade is initialised. *)
Lemma run_routing_after_init dt params state new_state fluxes giuh_obj et_params
    surface_runoff infiltration Sfc subsurface_outlets nash_cascade :
  Kernel.init_nash_cascade_vector [] params state Sfc (max_lateral_flow params)
    = Ok nash_cascade ->
  let soil := response_meters_per_second
                (Kernel.subsurface_reservoir params state subsurface_outlets)
                infiltration dt in
  let post := get_storage_height_meters soil.1.1 in
  let et := Kernel.calc_evapotranspiration post et_params in
  let Qlf := velocity_meters_per_second_for_outlet soil.1.1 lf_outlet_index in
  let Qperc := velocity_meters_per_second_for_outlet soil.1.1 perc_outlet_index in
  let routed := cascade_route dt nash_cascade Qlf soil.2 in
  let gw := response_meters_per_second (Kernel.groundwater_res params state) Qperc dt in
  let hydrograph := calc_giuh_output giuh_obj dt surface_runoff in
  Kernel.run_routing dt params state new_state fluxes giuh_obj et_params
    surface_runoff infiltration Sfc subsurface_outlets =
  Ok (Kernel.mk_run_result 0
        (mk_tshirt_state (post - et.1) (get_storage_height_meters gw.1.1)
           (nash_cascade_storeage_meters new_state))
        (mk_tshirt_fluxes hydrograph.1 gw.1.2 Qperc routed.1.1 et.1)
        hydrograph.2 et.2).
Proof.
  intros Hinit. cbv zeta. unfold Kernel.run_routing.
  destruct (response_meters_per_second
              (Kernel.subsurface_reservoir params state subsurface_outlets)
              infiltration dt) as [[soil v] excess].
  cbn [fst snd].
  destruct (Kernel.calc_evapotranspiration (get_storage_height_meters soil) et_params)
    as [et_loss et_params'].
  rewrite Hinit. cbn [mbind result_bind fst snd].
  destruct (nash_cascade_loop_components dt
              (velocity_meters_per_second_for_outlet soil lf_outlet_index) excess
              nash_cascade) as (Qlf' & excess' & cascade' & Hroute & Hloop).
  rewrite Hloop, Hroute. cbn [mbind result_bind fst snd].
  destruct (response_meters_per_second (Kernel.groundwater_res params state)
              (velocity_meters_per_second_for_outlet soil perc_outlet_index) dt)
    as [[gw gw_flow] excess_gw_water].
  destruct (calc_giuh_output giuh_obj dt surface_runoff) as [runoff giuh_obj'].
  reflexivity.
Qed.

(** X10. The routing of [run] (from line 316) faults only where
    [init_nash_cascade_vector] does, with the same fault; otherwise it returns
    the code 0. *)
Theorem run_routing_faults_with_cascade_init dt params state new_state fluxes
    giuh_obj et_params surface_runoff infiltration Sfc subsurface_outlets :
  match Kernel.init_nash_cascade_vector [] params state Sfc (max_lateral_flow params) with
  | Fault e =>
      Kernel.run_routing dt params state new_state fluxes giuh_obj et_params
        surface_runoff infiltration Sfc subsurface_outlets = Fault e
  | Ok _ =>
      exists out,
        Kernel.run_routing dt params state new_state fluxes giuh_obj et_params
          surface_runoff infiltration Sfc subsurface_outlets = Ok out /\
        Kernel.return_code out = 0%Z
  end.
Proof.
  destruct (Kernel.init_nash_cascade_vector [] params state Sfc (max_lateral_flow params))
    as [nash_cascade|e] eqn:Hinit.
  - eexists. split; [apply (run_routing_after_init _ _ _ _ _ _ _ _ _ _ _ _ Hinit)|].
    reflexivity.
  - unfold Kernel.run_routing.
    destruct (response_meters_per_second _ _ _) as [[soil v] excess].
    destruct (Kernel.calc_evapotranspiration _ _) as [et_loss et_params'].
    by rewrite Hinit.
Qed.

(** X11. On a state whose array holds a storage for every stage, the routing
    returns the code 0 and: the soil storage after the step of the soil
    reservoir minus the ET loss; the groundwater storage after the step of the
    groundwater reservoir fed with the percolation velocity; the cascade
    pointer of [new_state] as passed; the runoff given by the unit hydrograph,
    the groundwater flow, the percolation velocity of the soil reservoir, the
    lateral flow routed through the stages built from the array, and the ET
    loss; the unit hydrograph and the ET structure after their single call. *)
Theorem run_routing_result dt params state new_state fluxes giuh_obj et_params
    surface_runoff infiltration Sfc subsurface_outlets (xs : list float) :
  nash_cascade_storeage_meters state = Some xs ->
  (0 <= nash_n params)%Z -> (Z.to_nat (nash_n params) <= length xs)%nat ->
  let soil := response_meters_per_second
                (Kernel.subsurface_reservoir params state subsurface_outlets)
                infiltration dt in
  let post := get_storage_height_meters soil.1.1 in
  let et := Kernel.calc_evapotranspiration post et_params in
  let Qlf := velocity_meters_per_second_for_outlet soil.1.1 lf_outlet_index in
  let Qperc := velocity_meters_per_second_for_outlet soil.1.1 perc_outlet_index in
  let stages :=
    map (fun x => mk_Nonlinear_Reservoir 0 (max_soil_storage_meters params) x
                    [mk_Reservoir_Outlet (Kn params) 1 Sfc (max_lateral_flow params)])
      (take (Z.to_nat (nash_n params)) xs) in
  let routed := cascade_route dt stages Qlf soil.2 in
  let gw := response_meters_per_second (Kernel.groundwater_res params state) Qperc dt in
  let hydrograph := calc_giuh_output giuh_obj dt surface_runoff in
  Kernel.run_routing dt params state new_state fluxes giuh_obj et_params
    surface_runoff infiltration Sfc subsurface_outlets =
  Ok (Kernel.mk_run_result 0
        (mk_tshirt_state (post - et.1) (get_storage_height_meters gw.1.1)
           (nash_cascade_storeage_meters new_state))
        (mk_tshirt_fluxes hydrograph.1 gw.1.2 Qperc routed.1.1 et.1)
        hydrograph.2 et.2).
Proof.
  intros Hxs Hn Hlen.
  apply run_routing_after_init.
  apply (init_nash_cascade_vector_Ok params state xs _ _ Hxs Hn Hlen).
Qed.

(** X12. Without stages the routing returns for every state, a null cascade
    pointer included, and the lateral flow it reports is the velocity of the
    lateral outlet of the soil reservoir, unchanged. *)
Theorem run_routing_no_cascade_passes_lateral_flow dt params state new_state fluxes
    giuh_obj et_params surface_runoff infiltration Sfc subsurface_outlets :
  nash_n params = 0%Z ->
  exists out,
    Kernel.run_routing dt params state new_state fluxes giuh_obj et_params
      surface_runoff infiltration Sfc subsurface_outlets = Ok out /\
    soil_lateral_flow_meters_per_second (Kernel.fluxes_out out) =
      velocity_meters_per_second_for_outlet
        (response_meters_per_second
           (Kernel.subsurface_reservoir params state subsurface_outlets)
           infiltration dt).1.1 lf_outlet_index.
Proof.
  intros Hn.
  assert (Kernel.init_nash_cascade_vector [] params state Sfc (max_lateral_flow params)
          = Ok []) as Hinit.
  { unfold Kernel.init_nash_cascade_vector. by rewrite Hn. }
  eexists. split; [apply (run_routing_after_init _ _ _ _ _ _ _ _ _ _ _ _ Hinit)|].
  reflexivity.
Qed.

End Routing.

(** ** The stages under the contract of the engine *)

Section UnderContract.
Context {engine : ReservoirEngine} {contract : ReservoirContract}.

(** Every stage leaves the routing with its bounds and outlets, and with its
    storage between the bounds when they are ordered. *)
Lemma cascade_route_keeps_stages dt (stages : list Nonlinear_Reservoir) :
  forall Qlf excess,
    Forall2 (fun r r' =>
      minimum_storage_meters r' = minimum_storage_meters r /\
      maximum_storage_meters r' = maximum_storage_meters r /\
      outlets r' = outlets r /\
      ((minimum_storage_meters r <=? maximum_storage_meters r) = true ->
       (minimum_storage_meters r <=? current_storage_height_meters r') = true /\
       (current_storage_height_meters r' <=? maximum_storage_meters r) = true))
      stages (cascade_route dt stages Qlf excess).2.
Proof.
  induction stages as [|r rest IH]; intros Qlf excess; [constructor|].
  cbn [cascade_route].
  pose proof (response_keeps_configuration r Qlf dt) as Hconf.
  pose proof (response_storage_within_bounds r Qlf dt) as Hbounds.
  destruct (response_meters_per_second r Qlf dt) as [[r' velocity] excess'].
  specialize (IH (velocity + excess' / dt) excess').
  destruct (cascade_route dt rest (velocity + excess' / dt) excess')
    as [[Qlf' excess''] rest'].
  cbn in Hconf, Hbounds, IH |- *. constructor; [|exact IH].
  destruct Hconf as (Hmin & Hmax & Houtlets). by repeat split; try apply Hbounds.
Qed.

(** X15. With an engine that honours its contract and a non-negative
    [max_soil_storage_meters], the stages that [run] initialises from the
    state and routes the lateral flow through end the step, one per stage,
    with the bounds 0 and [max_soil_storage_meters], the outlet
    [(Kn, 1, Sfc, max_lateral_flow)] and a storage between the bounds. *)
Theorem nash_cascade_stages_within_bounds dt (params : tshirt_params)
    (state : tshirt_state) (xs : list float) (Sfc Qlf excess : float) :
  nash_cascade_storeage_meters state = Some xs ->
  (0 <= nash_n params)%Z -> (Z.to_nat (nash_n params) <= length xs)%nat ->
  (0 <=? max_soil_storage_meters params) = true ->
  exists nash_cascade Qlf' excess' nash_cascade',
    Kernel.init_nash_cascade_vector [] params state Sfc (max_lateral_flow params)
      = Ok nash_cascade /\
    Kernel.nash_cascade_loop dt Qlf excess nash_cascade
      = Ok (Qlf', excess', nash_cascade') /\
    length nash_cascade' = Z.to_nat (nash_n params) /\
    Forall (fun r' =>
      minimum_storage_meters r' = 0 /\
      maximum_storage_meters r' = max_soil_storage_meters params /\
      outlets r' = [mk_Reservoir_Outlet (Kn params) 1 Sfc (max_lateral_flow params)] /\
      (0 <=? current_storage_height_meters r') = true /\
      (current_storage_height_meters r' <=? max_soil_storage_meters params) = true)
      nash_cascade'.
Proof.
  intros Hxs Hn Hlen Hmax.
  pose proof (init_nash_cascade_vector_Ok params state xs Sfc (max_lateral_flow params)
                Hxs Hn Hlen) as Hinit.
  set (stages := map _ _) in Hinit.
  destruct (nash_cascade_loop_components dt Qlf excess stages)
    as (Qlf' & excess' & stages' & Hroute & Hloop).
  exists stages, Qlf', excess', stages'. split; [exact Hinit|]. split; [exact Hloop|].
  pose proof (cascade_route_keeps_stages dt stages Qlf excess) as Hkeep.
  rewrite Hroute in Hkeep. cbn [snd] in Hkeep. split.
  - rewrite <- (Forall2_length _ _ _ Hkeep). subst stages.
    rewrite length_map, length_take. lia.
  - apply Forall_forall. intros r' Hr'.
    apply list_elem_of_lookup in Hr' as [i Hi].
    destruct (Forall2_lookup_r _ _ _ _ _ Hkeep Hi) as (r & Hr & Hmin & Hmx & Hout & Hb).
    subst stages. rewrite list_lookup_fmap in Hr.
    destruct (take (Z.to_nat (nash_n params)) xs !! i) as [x|]; [|discriminate].
    injection Hr as <-. cbn in Hmin, Hmx, Hout, Hb.
    rewrite Hmin, Hmx, Hout. repeat split; by apply Hb.
Qed.

End UnderContract.

(** ** The field capacity at [b = 1] *)

Lemma mul_nan_r (x : float) : x * nan = nan.
Proof.
  rewrite <- (SF2Prim_Prim2SF (x * nan)). rewrite mul_spec.
  change (Prim2SF nan) with S754_nan.
  unfold SF64mul, SFmul. by destruct (Prim2SF x).
Qed.

(** X18. With [b = 1] the formula of the field capacity divides by
    [b - 1 = 0]: each of its two terms is infinite once [pow] gives 1 at the
    exponent 0, their difference is NaN, and so is the field capacity that
    [calc_soil_field_capacity_storage] returns. *)
Theorem field_capacity_is_nan_when_b_is_one {libm : Libm} {constants : Constants}
    (params : tshirt_params) (state : tshirt_state) :
  b params = 1 ->
  let z1 := alpha_fc params * (ATMOSPHERIC_PRESSURE_PASCALS / WATER_SPECIFIC_WEIGHT)
            - 0.5 in
  pow z1 0 = 1 -> pow (z1 + 2) 0 = 1 ->
  Kernel.calc_soil_field_capacity_storage params state = nan.
Proof.
  intros Hb z1 Hz1 Hz2. unfold Kernel.calc_soil_field_capacity_storage.
  fold z1. rewrite Hb.
  change ((1 - 1) / 1) with 0. rewrite Hz1, Hz2.
  change (1 * 1 / (1 - 1) - 1 * 1 / (1 - 1)) with nan.
  apply mul_nan_r.
Qed.

(** ** The further properties, applied to the scenario *)

Section FurtherWitnesses.
#[local] Existing Instances Scenario.linear_engine Scenario.libm Scenario.constants
  Scenario.deficit_partitioner Scenario.giuh_passthrough.

Lemma init_nash_cascade_vector_fills_witness :
  Kernel.init_nash_cascade_vector [default_reservoir] catchment dry_state 0.25 0.25 =
  Ok [mk_Nonlinear_Reservoir 0 0.5 0 [mk_Reservoir_Outlet 0 1 0.25 0.25];
      mk_Nonlinear_Reservoir 0 0.5 0 [mk_Reservoir_Outlet 0 1 0.25 0.25]].
Proof.
  apply (init_nash_cascade_vector_fills [default_reservoir] catchment dry_state [0; 0]
           0.25 0.25); [reflexivity | vm_compute; discriminate | cbn; lia].
Defined.

Lemma init_nash_cascade_vector_short_array_witness :
  Kernel.init_nash_cascade_vector [] catchment one_stage_state 0.25 0.25 =
  Fault OutOfBounds.
Proof.
  apply (init_nash_cascade_vector_short_array [] catchment one_stage_state [0]
           0.25 0.25); [reflexivity | cbn; lia].
Defined.

Lemma init_nash_cascade_vector_null_array_witness :
  Kernel.init_nash_cascade_vector [] catchment (tshirt_state_default_cascade 0 0)
    0.25 0.25 = Fault NullPointer.
Proof.
  apply (init_nash_cascade_vector_null_array [] catchment
           (tshirt_state_default_cascade 0 0) 0.25 0.25); reflexivity.
Defined.

Lemma init_nash_cascade_vector_negative_count_witness :
  Kernel.init_nash_cascade_vector [] (catchment_with_stages (-1)) dry_state 0.25 0.25 =
  Fault LengthError.
Proof.
  apply (init_nash_cascade_vector_negative_count [] (catchment_with_stages (-1))
           dry_state 0.25 0.25). reflexivity.
Defined.

Lemma tshirt_model_ctor_builds_witness :
  exists m,
    Model.tshirt_model_ctor model_Sfc catchment (Some dry_state) = Ok m /\
    Model.model_params m = catchment /\
    Model.current_state m = Some dry_state /\
    Model.previous_state m = Some dry_state /\
    length (Model.soil_lf_nash_res m) = 2%nat.
Proof.
  destruct (tshirt_model_ctor_builds model_Sfc catchment dry_state [0; 0])
    as (m & Hm & Hparams & Hcur & Hprev & _ & Hlen & _);
    [reflexivity | vm_compute; discriminate | cbn; lia |].
  exists m. repeat split; assumption.
Defined.

Lemma tshirt_model_ctor_null_state_witness :
  Model.tshirt_model_ctor model_Sfc catchment None = Fault NullPointer.
Proof.
  apply (tshirt_model_ctor_null_state model_Sfc catchment). vm_compute. discriminate.
Defined.

Lemma tshirt_model_ctor_short_array_witness :
  Model.tshirt_model_ctor model_Sfc catchment (Some one_stage_state) = Fault OutOfBounds.
Proof.
  apply (tshirt_model_ctor_short_array model_Sfc catchment one_stage_state [0]);
    [reflexivity | cbn; lia].
Defined.

Lemma tshirt_model_ctor_negative_count_witness :
  Model.tshirt_model_ctor model_Sfc (catchment_with_stages (-1)) None = Fault LengthError.
Proof.
  apply (tshirt_model_ctor_negative_count model_Sfc (catchment_with_stages (-1)) None).
  reflexivity.
Defined.

Lemma run_routing_result_witness :
  let Sfc := Kernel.calc_soil_field_capacity_storage catchment dry_state in
  Kernel.run_routing (pdm := Scenario.pdm03_shift 0) 4 catchment dry_state
    (tshirt_state_default_cascade 0 0) no_fluxes tt 0 0.5 0.5 Sfc
    (soil_outlets catchment Sfc) =
  Ok (Kernel.mk_run_result (pdm := Scenario.pdm03_shift 0) 0
        (mk_tshirt_state 1 0 None) (mk_tshirt_fluxes 0.5 0 0 0 0) tt 1).
Proof.
  intros Sfc.
  rewrite (run_routing_result (giuh := Scenario.giuh_passthrough)
             (pdm := Scenario.pdm03_shift 0) 4 catchment dry_state
             (tshirt_state_default_cascade 0 0) no_fluxes tt 0 0.5 0.5 Sfc
             (soil_outlets catchment Sfc) [0; 0]);
    [vm_compute; reflexivity | reflexivity | vm_compute; discriminate | cbn; lia].
Defined.

Lemma run_routing_no_cascade_passes_lateral_flow_witness :
  let Sfc := Kernel.calc_soil_field_capacity_storage catchment dry_state in
  exists out,
    Kernel.run_routing (pdm := Scenario.pdm03_shift 0) 4 (catchment_with_stages 0)
      (tshirt_state_default_cascade 0 0) (tshirt_state_default_cascade 0 0) no_fluxes
      tt 0 0.5 0.5 Sfc (soil_outlets catchment Sfc) = Ok out /\
    soil_lateral_flow_meters_per_second (Kernel.fluxes_out out) = 0.25.
Proof.
  intros Sfc.
  destruct (run_routing_no_cascade_passes_lateral_flow (giuh := Scenario.giuh_passthrough)
             (pdm := Scenario.pdm03_shift 0)
              4 (catchment_with_stages 0) (tshirt_state_default_cascade 0 0)
              (tshirt_state_default_cascade 0 0) no_fluxes tt 0 0.5 0.5 Sfc
              (soil_outlets catchment Sfc)) as (out & Hrun & Hflow); [reflexivity|].
  exists out. split; [exact Hrun|]. rewrite Hflow. vm_compute. reflexivity.
Defined.

Lemma nash_cascade_stages_within_bounds_witness :
  exists nash_cascade Qlf' excess' nash_cascade',
    Kernel.init_nash_cascade_vector [] catchment dry_state 0.25 (max_lateral_flow catchment)
      = Ok nash_cascade /\
    Kernel.nash_cascade_loop 4 0.25 0 nash_cascade = Ok (Qlf', excess', nash_cascade') /\
    length nash_cascade' = 2%nat /\
    Forall (fun r' =>
      (0 <=? current_storage_height_meters r') = true /\
      (current_storage_height_meters r' <=? 0.5) = true) nash_cascade'.
Proof.
  destruct (nash_cascade_stages_within_bounds 4 catchment dry_state [0; 0] 0.25 0.25 0)
    as (nc & q & e & nc' & Hinit & Hloop & Hlen & Hall);
    [reflexivity | vm_compute; discriminate | cbn; lia | vm_compute; reflexivity |].
  exists nc, q, e, nc'. repeat split; try assumption.
  eapply Forall_impl; [exact Hall|]. intros r' (_ & _ & _ & Hlo & Hhi). by split.
Defined.

Lemma field_capacity_is_nan_when_b_is_one_witness :
  Kernel.calc_soil_field_capacity_storage singular_catchment dry_state = nan.
Proof.
  apply (field_capacity_is_nan_when_b_is_one singular_catchment dry_state);
    vm_compute; reflexivity.
Defined.

End FurtherWitnesses.

(** ** A negative number of stages *)

Section NegativeCount.
Context {engine : ReservoirEngine} {libm : Libm} {giuh : Giuh} {pdm : Pdm03}.

(** X5. With a negative [nash_n] every path that sizes the cascade ends in
    the fault [LengthError] of [resize]: [init_nash_cascade_vector], the
    constructor of the model before it reads its initial state (a null one
    included), and the routing of [run], which returns neither state nor
    fluxes. *)
Theorem negative_stage_count_is_length_error (params : tshirt_params) :
  (nash_n params < 0)%Z ->
  (forall v state activation max_flow_velocity,
     Kernel.init_nash_cascade_vector v params state activation max_flow_velocity
       = Fault LengthError) /\
  (forall calc_Sfc initial_state,
     Model.tshirt_model_ctor calc_Sfc params initial_state = Fault LengthError) /\
  (forall dt state new_state fluxes giuh_obj et_params surface_runoff infiltration
          Sfc subsurface_outlets,
     Kernel.run_routing dt params state new_state fluxes giuh_obj et_params
       surface_runoff infiltration Sfc subsurface_outlets = Fault LengthError).
Proof.
  intros Hn. split; [|split].
  - intros v state activation max_flow_velocity.
    by apply init_nash_cascade_vector_negative_count.
  - intros calc_Sfc initial_state. by apply tshirt_model_ctor_negative_count.
  - intros dt state new_state fluxes giuh_obj et_params surface_runoff infiltration
      Sfc subsurface_outlets.
    unfold Kernel.run_routing.
    destruct (response_meters_per_second _ _ _) as [[soil v] excess].
    destruct (Kernel.calc_evapotranspiration _ _) as [et_loss et_params'].
    by rewrite init_nash_cascade_vector_negative_count.
Qed.

End NegativeCount.

Lemma negative_stage_count_is_length_error_witness :
  Model.tshirt_model_ctor (engine := Scenario.linear_engine) (libm := Scenario.libm)
    (model_Sfc (H := Scenario.libm) (H0 := Scenario.constants))
    (catchment_with_stages (-1)) None = Fault LengthError.
Proof.
  apply (negative_stage_count_is_length_error (engine := Scenario.linear_engine)
           (libm := Scenario.libm) (giuh := Scenario.giuh_passthrough)
           (pdm := Scenario.pdm03_shift 0) (catchment_with_stages (-1))).
  reflexivity.
Defined.

(** * The time step on the objects of the caller *)

Section CallerObjects.
Context {engine : ReservoirEngine} {libm : Libm} {constants : Constants}
  {partitioner : Partitioner} {giuh : Giuh} {pdm : Pdm03}.

(** The two paths of the routing. Lines 316-330 have updated the ET
    structure, [fluxes.et_loss_meters] and [new_state.soil_storage_meters]
    when [init_nash_cascade_vector] is called: if it faults, the objects are
    left so; if not, the routing runs to its end and returns 0. *)
Lemma run_routing_with_objects_paths dt params state (objects : Kernel.caller_objects)
    surface_runoff infiltration Sfc subsurface_outlets :
  let soil := response_meters_per_second
                (Kernel.subsurface_reservoir params state subsurface_outlets)
                infiltration dt in
  let post := get_storage_height_meters soil.1.1 in
  let et := Kernel.calc_evapotranspiration post (Kernel.et_params_of objects) in
  let Qlf := velocity_meters_per_second_for_outlet soil.1.1 lf_outlet_index in
  let Qperc := velocity_meters_per_second_for_outlet soil.1.1 perc_outlet_index in
  let gw := response_meters_per_second (Kernel.groundwater_res params state) Qperc dt in
  let hydrograph := calc_giuh_output (Kernel.giuh_of objects) dt surface_runoff in
  let caller_state := Kernel.new_state_of objects in
  let caller_fluxes := Kernel.fluxes_of objects in
  match Kernel.init_nash_cascade_vector [] params state Sfc (max_lateral_flow params) with
  | Fault e =>
      Kernel.run_routing_with_objects dt params state objects surface_runoff
        infiltration Sfc subsurface_outlets =
      (Fault e,
       Kernel.mk_caller_objects
         (mk_tshirt_state (post - et.1) (groundwater_storage_meters caller_state)
            (nash_cascade_storeage_meters caller_state))
         (mk_tshirt_fluxes (surface_runoff_meters_per_second caller_fluxes)
            (groundwater_flow_meters_per_second caller_fluxes)
            (soil_percolation_flow_meters_per_second caller_fluxes)
            (soil_lateral_flow_meters_per_second caller_fluxes) et.1)
         (Kernel.giuh_of objects) et.2)
  | Ok nash_cascade =>
      Kernel.run_routing_with_objects dt params state objects surface_runoff
        infiltration Sfc subsurface_outlets =
      (Ok 0%Z,
       Kernel.mk_caller_objects
         (mk_tshirt_state (post - et.1) (get_storage_height_meters gw.1.1)
            (nash_cascade_storeage_meters caller_state))
         (mk_tshirt_fluxes hydrograph.1 gw.1.2 Qperc
            (cascade_route dt nash_cascade Qlf soil.2).1.1 et.1)
         hydrograph.2 et.2)
  end.
Proof.
  cbv zeta. unfold Kernel.run_routing_with_objects.
  destruct (response_meters_per_second
              (Kernel.subsurface_reservoir params state subsurface_outlets)
              infiltration dt) as [[soil v] excess].
  cbn [fst snd].
  destruct (Kernel.calc_evapotranspiration (get_storage_height_meters soil)
              (Kernel.et_params_of objects)) as [et_loss et_params'].
  destruct (Kernel.init_nash_cascade_vector [] params state Sfc (max_lateral_flow params))
    as [nash_cascade|e]; [|reflexivity].
  destruct (nash_cascade_loop_components dt
              (velocity_meters_per_second_for_outlet soil lf_outlet_index) excess
              nash_cascade) as (Qlf' & excess' & cascade' & Hroute & Hloop).
  rewrite Hloop, Hroute.
  destruct (response_meters_per_second (Kernel.groundwater_res params state)
              (velocity_meters_per_second_for_outlet soil perc_outlet_index) dt)
    as [[gw gw_flow] excess_gw_water].
  cbn [Kernel.giuh_of Kernel.with_fluxes Kernel.with_new_state Kernel.with_et_params].
  destruct (calc_giuh_output (Kernel.giuh_of objects) dt surface_runoff)
    as [runoff giuh_obj'].
  reflexivity.
Qed.

(** The routing with the objects gives the result of [run_routing]. *)
Lemma run_routing_with_objects_returned dt params state (objects : Kernel.caller_objects)
    surface_runoff infiltration Sfc subsurface_outlets :
  Kernel.run_routing dt params state (Kernel.new_state_of objects)
    (Kernel.fluxes_of objects) (Kernel.giuh_of objects) (Kernel.et_params_of objects)
    surface_runoff infiltration Sfc subsurface_outlets =
  Kernel.returned
    (Kernel.run_routing_with_objects dt params state objects surface_runoff
       infiltration Sfc subsurface_outlets).
Proof.
  pose proof (run_routing_with_objects_paths dt params state objects surface_runoff
                infiltration Sfc subsurface_outlets) as Hpaths.
  cbv zeta in Hpaths.
  destruct (Kernel.init_nash_cascade_vector [] params state Sfc (max_lateral_flow params))
    as [nash_cascade|e] eqn:Hinit; rewrite Hpaths.
  - rewrite (run_routing_after_init _ _ _ _ _ _ _ _ _ _ _ _ Hinit). reflexivity.
  - unfold Kernel.run_routing.
    destruct (response_meters_per_second _ _ _) as [[soil v] excess].
    destruct (Kernel.calc_evapotranspiration _ _) as [et_loss et_params'].
    by rewrite Hinit.
Qed.

(** [run] faults at its first store into the empty outlet vector, with the
    objects of the caller as they were. *)
Lemma run_with_objects_faults dt params state (objects : Kernel.caller_objects)
    input_flux_meters :
  Kernel.run_with_objects dt params state objects input_flux_meters =
  (Fault OutOfBounds, objects).
Proof.
  unfold Kernel.run_with_objects.
  by destruct (Schaake_partitioning_scheme _ _ _ _) as [surface_runoff infiltration].
Qed.

(** [run] with the objects gives the result of [run]. *)
Lemma run_with_objects_returned dt params state (objects : Kernel.caller_objects)
    input_flux_meters :
  Kernel.run dt params state (Kernel.new_state_of objects) (Kernel.fluxes_of objects)
    input_flux_meters (Kernel.giuh_of objects) (Kernel.et_params_of objects) =
  Kernel.returned (Kernel.run_with_objects dt params state objects input_flux_meters).
Proof.
  rewrite run_with_objects_faults. unfold Kernel.run.
  rewrite run_from_short by (cbn; lia). reflexivity.
Qed.

(** C2. Every call of [run] ends at line 310 in the out-of-bounds fault and
    leaves [new_state] as the caller passed it: no new state is assembled.
    The lines from 316 on, on every path through them, leave the cascade
    storages of [new_state] as the caller passed them: no statement stores
    the storages of the cascade reservoirs. *)
Theorem run_stores_no_cascade_storages dt params state (objects : Kernel.caller_objects)
    input_flux_meters surface_runoff infiltration Sfc subsurface_outlets :
  Kernel.run_with_objects dt params state objects input_flux_meters =
    (Fault OutOfBounds, objects) /\
  nash_cascade_storeage_meters
    (Kernel.new_state_of
       (Kernel.run_routing_with_objects dt params state objects surface_runoff
          infiltration Sfc subsurface_outlets).2) =
  nash_cascade_storeage_meters (Kernel.new_state_of objects).
Proof.
  split; [apply run_with_objects_faults|].
  pose proof (run_routing_with_objects_paths dt params state objects surface_runoff
                infiltration Sfc subsurface_outlets) as Hpaths.
  cbv zeta in Hpaths.
  destruct (Kernel.init_nash_cascade_vector [] params state Sfc (max_lateral_flow params));
    by rewrite Hpaths.
Qed.

(** C6, as the code has it. On every path through the lines from 316 on,
    also when the cascade initialisation faults, the ET loss is the one
    computed from the storage of the soil reservoir after its step, and the
    soil storage of [new_state] is that storage minus the loss; nothing
    clamps the difference. *)
Theorem run_routing_soil_storage_after_et dt params state
    (objects : Kernel.caller_objects) surface_runoff infiltration Sfc subsurface_outlets :
  let post := get_storage_height_meters
                (response_meters_per_second
                   (Kernel.subsurface_reservoir params state subsurface_outlets)
                   infiltration dt).1.1 in
  let loss := (Kernel.calc_evapotranspiration post (Kernel.et_params_of objects)).1 in
  let after := (Kernel.run_routing_with_objects dt params state objects surface_runoff
                  infiltration Sfc subsurface_outlets).2 in
  et_loss_meters (Kernel.fluxes_of after) = loss /\
  soil_storage_meters (Kernel.new_state_of after) = post - loss.
Proof.
  pose proof (run_routing_with_objects_paths dt params state objects surface_runoff
                infiltration Sfc subsurface_outlets) as Hpaths.
  cbv zeta in Hpaths |- *.
  destruct (Kernel.init_nash_cascade_vector [] params state Sfc (max_lateral_flow params));
    rewrite Hpaths; split; reflexivity.
Qed.

(** X13. When [init_nash_cascade_vector] faults at line 335, [run] has
    written the ET structure, [fluxes.et_loss_meters] and
    [new_state.soil_storage_meters], and nothing else: the four other fluxes,
    the groundwater storage and the cascade pointer of [new_state], and the
    unit hydrograph are as the caller passed them. *)
Theorem run_routing_fault_leaves_partial_writes dt params state
    (objects : Kernel.caller_objects) surface_runoff infiltration Sfc
    subsurface_outlets (e : fault) :
  Kernel.init_nash_cascade_vector [] params state Sfc (max_lateral_flow params)
    = Fault e ->
  let post := get_storage_height_meters
                (response_meters_per_second
                   (Kernel.subsurface_reservoir params state subsurface_outlets)
                   infiltration dt).1.1 in
  let et := Kernel.calc_evapotranspiration post (Kernel.et_params_of objects) in
  let caller_state := Kernel.new_state_of objects in
  let caller_fluxes := Kernel.fluxes_of objects in
  Kernel.run_routing_with_objects dt params state objects surface_runoff
    infiltration Sfc subsurface_outlets =
  (Fault e,
   Kernel.mk_caller_objects
     (mk_tshirt_state (post - et.1) (groundwater_storage_meters caller_state)
        (nash_cascade_storeage_meters caller_state))
     (mk_tshirt_fluxes (surface_runoff_meters_per_second caller_fluxes)
        (groundwater_flow_meters_per_second caller_fluxes)
        (soil_percolation_flow_meters_per_second caller_fluxes)
        (soil_lateral_flow_meters_per_second caller_fluxes) et.1)
     (Kernel.giuh_of objects) et.2).
Proof.
  intros Hinit.
  pose proof (run_routing_with_objects_paths dt params state objects surface_runoff
                infiltration Sfc subsurface_outlets) as Hpaths.
  cbv zeta in Hpaths |- *. by rewrite Hinit in Hpaths.
Qed.

(** The closed form of the loop over a cascade that ends with [last]. *)
Lemma cascade_route_snoc dt (stages : list Nonlinear_Reservoir)
    (last : Nonlinear_Reservoir) :
  forall Qlf excess,
    cascade_route dt (stages ++ [last]) Qlf excess =
    let '(Qlf', excess', stages') := cascade_route dt stages Qlf excess in
    let '(last', velocity, excess'') := response_meters_per_second last Qlf' dt in
    (velocity + excess'' / dt, excess'', stages' ++ [last']).
Proof.
  induction stages as [|r rest IH]; intros Qlf excess.
  - cbn. by destruct (response_meters_per_second last Qlf dt) as [[last' v] ex].
  - cbn [app cascade_route].
    destruct (response_meters_per_second r Qlf dt) as [[r' v] ex].
    rewrite IH.
    destruct (cascade_route dt rest (v + ex / dt) ex) as [[Qlf' excess'] rest'].
    by destruct (response_meters_per_second last Qlf' dt) as [[last' v'] ex'].
Qed.

(** C5, as the code has it. The loop routes [Qlf] through the stages in
    order. After each stage its excess over [dt] is added to its output
    velocity: the sum is the inflow of the next stage and, after the last
    stage, the final [Qlf]. So the final [Qlf] contains the excess of the
    last stage; the excess of an earlier stage enters the stage that
    follows. *)
Theorem nash_cascade_loop_feeds_excess_forward dt (Qlf excess : float)
    (first last : Nonlinear_Reservoir) (stages : list Nonlinear_Reservoir) :
  Kernel.nash_cascade_loop dt Qlf excess [] = Ok (Qlf, excess, []) /\
  Kernel.nash_cascade_loop dt Qlf excess (first :: stages) =
    (let '(first', velocity, excess') := response_meters_per_second first Qlf dt in
     '(Qlf', excess'', stages') ←
       Kernel.nash_cascade_loop dt (velocity + excess' / dt) excess' stages;
     Ok (Qlf', excess'', first' :: stages')) /\
  Kernel.nash_cascade_loop dt Qlf excess (stages ++ [last]) =
    ('(Qlf', excess', stages') ← Kernel.nash_cascade_loop dt Qlf excess stages;
     let '(last', velocity, excess'') := response_meters_per_second last Qlf' dt in
     Ok (velocity + excess'' / dt, excess'', stages' ++ [last'])).
Proof.
  split; [reflexivity|]. split.
  - destruct (nash_cascade_loop_components dt Qlf excess (first :: stages))
      as (q & e & c & Hroute & ->).
    cbn [cascade_route] in Hroute.
    destruct (response_meters_per_second first Qlf dt) as [[first' v] ex].
    destruct (nash_cascade_loop_components dt (v + ex / dt) ex stages)
      as (q' & e' & c' & Hroute' & ->).
    rewrite Hroute' in Hroute. by injection Hroute as <- <- <-.
  - destruct (nash_cascade_loop_components dt Qlf excess (stages ++ [last]))
      as (q & e & c & Hroute & ->).
    rewrite cascade_route_snoc in Hroute.
    destruct (nash_cascade_loop_components dt Qlf excess stages)
      as (q' & e' & c' & Hroute' & ->).
    rewrite Hroute' in Hroute. cbn [mbind result_bind].
    destruct (response_meters_per_second last q' dt) as [[last' v] ex].
    by injection Hroute as <- <- <-.
Qed.

End CallerObjects.

(** ** The objects of the caller in the scenario *)

Section CallerObjectsScenario.
#[local] Existing Instances Scenario.linear_engine Scenario.libm Scenario.constants
  Scenario.deficit_partitioner Scenario.giuh_passthrough.

(** C5, refuted as stated. Both stages empty, a lateral flow of 0.25 and
    [dt = 4]: the first stage takes one metre, keeps its maximum of half a
    metre and reports an excess of half a metre; the loop hands 0.5 / 4 to
    the second stage, which holds it, and the final [Qlf] is 0. The excess of
    the first stage is not in the final [Qlf]; accumulated as the spec words
    it, the final [Qlf] would be 0.125. *)
Lemma cascade_excess_not_in_final_Qlf :
  (response_meters_per_second (cascade_stage catchment 0.25 0) 0.25 4).2 = 0.5 /\
  Kernel.nash_cascade_loop 4 0.25 0 empty_stages =
    Ok (0, 0, [cascade_stage catchment 0.25 0.5; cascade_stage catchment 0.25 0.5]) /\
  Qlf_with_accumulated_excess 4 empty_stages 0.25 = 0.125 /\
  (0 =? 0.125) = false.
Proof. repeat split; vm_compute; reflexivity. Qed.

(** C6, refuted as stated. The call of [run] faults at line 310 and leaves
    the soil storage of the caller's [new_state], 3, where it was: the time
    step produces no new soil storage. And in the lines from 316 on, with an
    ET submodel whose loss is two metres, the soil reservoir ends its step at
    one metre and the soil storage of [new_state] becomes minus one metre. *)
Lemma run_soil_storage_unclamped :
  let Sfc := Kernel.calc_soil_field_capacity_storage catchment dry_state in
  let after := (Kernel.run_routing_with_objects (pdm := Scenario.pdm03_shift 2)
                  4 catchment dry_state (marked_objects 2) 0.5 0.5 Sfc
                  (soil_outlets catchment Sfc)) in
  Kernel.run_with_objects (pdm := Scenario.pdm03_shift 2) 4 catchment dry_state
    (marked_objects 2) 1 = (Fault OutOfBounds, marked_objects 2) /\
  soil_storage_meters (Kernel.new_state_of (marked_objects 2)) = 3 /\
  after.1 = Ok 0%Z /\
  et_loss_meters (Kernel.fluxes_of after.2) = 2 /\
  soil_storage_meters (Kernel.new_state_of after.2) = (-1) /\
  (soil_storage_meters (Kernel.new_state_of after.2) <? 0) = true.
Proof. repeat split; vm_compute; reflexivity. Qed.

(** With an ET submodel whose loss is a quarter of a metre, the soil storage
    of [new_state] after the lines from 316 on is one metre minus the loss. *)
Lemma run_routing_soil_storage_after_et_witness :
  let Sfc := Kernel.calc_soil_field_capacity_storage catchment dry_state in
  let after := (Kernel.run_routing_with_objects (pdm := Scenario.pdm03_shift 0.25)
                  4 catchment dry_state (marked_objects 0.25) 0.5 0.5 Sfc
                  (soil_outlets catchment Sfc)).2 in
  et_loss_meters (Kernel.fluxes_of after) = 0.25 /\
  soil_storage_meters (Kernel.new_state_of after) = 1 - 0.25.
Proof.
  intros Sfc after.
  pose proof (run_routing_soil_storage_after_et (giuh := Scenario.giuh_passthrough)
                (pdm := Scenario.pdm03_shift 0.25) 4 catchment dry_state
                (marked_objects 0.25) 0.5 0.5 Sfc (soil_outlets catchment Sfc)) as H.
  cbv zeta in H. fold after in H.
  destruct H as [Hloss Hsoil]. split.
  - rewrite Hloss. vm_compute. reflexivity.
  - rewrite Hsoil. vm_compute. reflexivity.
Defined.

(** The stages of the scenario end the lines from 316 on at half a metre
    each, and the cascade pointer of [new_state] is still the null pointer of
    the caller. *)
Example scenario_cascade_storages_not_stored :
  let Sfc := Kernel.calc_soil_field_capacity_storage catchment dry_state in
  let after := (Kernel.run_routing_with_objects (pdm := Scenario.pdm03_shift 0)
                  4 catchment dry_state (marked_objects 0) 0.5 0.5 Sfc
                  (soil_outlets catchment Sfc)) in
  after.1 = Ok 0%Z /\
  nash_cascade_storeage_meters (Kernel.new_state_of after.2) = None /\
  exists stages Qlf' excess',
    (nash_cascade ← Kernel.init_nash_cascade_vector [] catchment dry_state Sfc
                      (max_lateral_flow catchment);
     Kernel.nash_cascade_loop 4 0.25 0 nash_cascade) = Ok (Qlf', excess', stages) /\
    map get_storage_height_meters stages = [0.5; 0.5].
Proof.
  intros Sfc after. split; [vm_compute; reflexivity|]. split; [vm_compute; reflexivity|].
  eexists. eexists. eexists. split; [vm_compute; reflexivity | reflexivity].
Qed.

Lemma run_routing_fault_leaves_partial_writes_witness :
  let Sfc := Kernel.calc_soil_field_capacity_storage catchment dry_state in
  Kernel.run_routing_with_objects (pdm := Scenario.pdm03_shift 0.25) 4
    (catchment_with_stages (-1)) dry_state (marked_objects 0.25) 0.5 0.5 Sfc
    (soil_outlets catchment Sfc) =
  (Fault LengthError,
   Kernel.mk_caller_objects (giuh := Scenario.giuh_passthrough)
     (pdm := Scenario.pdm03_shift 0.25)
     (mk_tshirt_state 0.75 5 None) (mk_tshirt_fluxes 7 7 7 7 0.25) tt 1.25).
Proof.
  intros Sfc.
  rewrite (run_routing_fault_leaves_partial_writes (giuh := Scenario.giuh_passthrough)
             (pdm := Scenario.pdm03_shift 0.25) 4 (catchment_with_stages (-1)) dry_state
             (marked_objects 0.25) 0.5 0.5 Sfc (soil_outlets catchment Sfc) LengthError);
    [vm_compute; reflexivity | reflexivity].
Defined.

(** In the percolating catchment the percolation fills the groundwater
    reservoir to its maximum, where the engine holds it. *)
Lemma run_groundwater_storage_within_bounds_witness :
  let Sfc := Kernel.calc_soil_field_capacity_storage percolating_catchment dry_state in
  exists out,
    Kernel.run_routing (pdm := Scenario.pdm03_shift 0) 4 percolating_catchment dry_state
      (tshirt_state_default_cascade 0 0) no_fluxes tt 0 0.5 0.5 Sfc
      (soil_outlets percolating_catchment Sfc) = Ok out /\
    (0 <? soil_percolation_flow_meters_per_second (Kernel.fluxes_out out)) = true /\
    groundwater_storage_meters (Kernel.new_state_out out) = 0.05 /\
    (0 <=? groundwater_storage_meters (Kernel.new_state_out out)) = true /\
    (groundwater_storage_meters (Kernel.new_state_out out)
       <=? max_groundwater_storage_meters percolating_catchment) = true.
Proof.
  intros Sfc.
  assert (exists out,
    Kernel.run_routing (pdm := Scenario.pdm03_shift 0) 4 percolating_catchment dry_state
      (tshirt_state_default_cascade 0 0) no_fluxes tt 0 0.5 0.5 Sfc
      (soil_outlets percolating_catchment Sfc) = Ok out /\
    (0 <? soil_percolation_flow_meters_per_second (Kernel.fluxes_out out)) = true /\
    groundwater_storage_meters (Kernel.new_state_out out) = 0.05)
    as (out & Hrun & Hperc & Hgw)
    by (eexists; split; [vm_compute; reflexivity | split; vm_compute; reflexivity]).
  exists out. split; [exact Hrun|]. split; [exact Hperc|]. split; [exact Hgw|].
  apply (run_groundwater_storage_within_bounds (giuh := Scenario.giuh_passthrough)
           (pdm := Scenario.pdm03_shift 0) 4 percolating_catchment dry_state
           (tshirt_state_default_cascade 0 0) no_fluxes tt 0 0.5 0.5 Sfc
           (soil_outlets percolating_catchment Sfc) out); [vm_compute; reflexivity|exact Hrun].
Defined.

End CallerObjectsScenario.
